(** * GAIA agent: tool table, dispatch pipeline and evaluation runner

    A shallow embedding of [azrock/agent.py] (class [SimpleLLMAgent]), of
    the evaluation loop of [app.py] ([GaiaAgent], [fetch_questions],
    [submit_answers], [run_and_submit_all]) and of the wrapper of
    [model.py] (class [Model]).

    Conventions of the embedding:
    - a Python [str] is a [string] holding its UTF-8 bytes; substring tests
      on well-formed UTF-8 coincide with substring tests on code points;
      [str.lower], [str.strip], [len] and slices work on characters (code
      points), with the tables of the Unicode character database 14.0.0
      and the rule of the final sigma;
    - [print] has no modelled effect;
    - a Python call that may raise returns a [result]; the exceptions of the
      model are instances of [Exception] (what [except Exception] catches);
    - network calls are answered by an explicit [World], and every call that
      leaves the process is recorded in a trace of [event]s. *)

From Stdlib Require Import Bool Arith NArith ZArith List Ascii String Lia.
From Stdlib Require Import Numbers.DecimalString.
Import ListNotations.

Open Scope string_scope.
Open Scope bool_scope.

Set Warnings "-register-all".

(** ** Python strings *)

Module PyStr.
Local Open Scope N_scope.

(** *** Characters

    A [str] is held as its UTF-8 bytes; a character is a byte together
    with the continuation bytes ([10xxxxxx]) that follow it. *)

Definition code (c : ascii) : N := N_of_ascii c.

Definition is_cont (c : ascii) : bool := (128 <=? code c) && (code c <? 192).

Definition starts_cont (s : string) : bool :=
  match s with
  | String c _ => is_cont c
  | EmptyString => false
  end.

(** The characters of a string, in order. *)
Fixpoint chars (s : string) : list string :=
  match s with
  | EmptyString => []
  | String c t =>
      if starts_cont t
      then match chars t with
           | x :: xs => String c x :: xs
           | [] => [String c EmptyString]
           end
      else String c EmptyString :: chars t
  end.

(** [''.join(l)] *)
Definition join (l : list string) : string :=
  fold_right append EmptyString l.

(** [ord(ch)]: the code point that a character encodes; none for bytes
    that are not the UTF-8 form of a code point. *)
Definition ord (ch : string) : option N :=
  match ch with
  | String a EmptyString =>
      if code a <? 128 then Some (code a) else None
  | String a (String b EmptyString) =>
      if (194 <=? code a) && (code a <? 224) && is_cont b
      then Some ((code a - 192) * 64 + (code b - 128))
      else None
  | String a (String b (String c EmptyString)) =>
      if (224 <=? code a) && (code a <? 240) && is_cont b && is_cont c
      then let n := (code a - 224) * 4096 + (code b - 128) * 64
                    + (code c - 128) in
           if 2048 <=? n then Some n else None
      else None
  | String a (String b (String c (String d EmptyString))) =>
      if (240 <=? code a) && (code a <? 248)
         && is_cont b && is_cont c && is_cont d
      then let n := (code a - 240) * 262144 + (code b - 128) * 4096
                    + (code c - 128) * 64 + (code d - 128) in
           if (65536 <=? n) && (n <=? 0x10FFFF) then Some n else None
      else None
  | _ => None
  end.

(** [chr(n)], in UTF-8. *)
Definition chr (n : N) : string :=
  if n <? 128 then String (ascii_of_N n) EmptyString
  else if n <? 2048
  then String (ascii_of_N (192 + n / 64))
         (String (ascii_of_N (128 + n mod 64)) EmptyString)
  else if n <? 65536
  then String (ascii_of_N (224 + n / 4096))
         (String (ascii_of_N (128 + (n / 64) mod 64))
            (String (ascii_of_N (128 + n mod 64)) EmptyString))
  else String (ascii_of_N (240 + n / 262144))
         (String (ascii_of_N (128 + (n / 4096) mod 64))
            (String (ascii_of_N (128 + (n / 64) mod 64))
               (String (ascii_of_N (128 + n mod 64)) EmptyString))).

(** A string that is the UTF-8 form of a [str]: each of its characters
    encodes a code point. *)
Definition valid (s : string) : bool :=
  forallb (fun ch => match ord ch with Some _ => true | None => false end)
    (chars s).

(** [len(s)]: each character is counted at its first byte. *)
Fixpoint len (s : string) : nat :=
  match s with
  | EmptyString => O
  | String c t => if is_cont c then len t else S (len t)
  end.

(** [s[:n]] for [n >= 0]: the first [n] characters. *)
Fixpoint take (n : nat) (s : string) : string :=
  match s with
  | EmptyString => EmptyString
  | String c t =>
      if is_cont c then String c (take n t)
      else match n with
           | O => EmptyString
           | S k => String c (take k t)
           end
  end.

(** [s[n:]] for [n >= 0]: what follows the first [n] characters. *)
Fixpoint drop (n : nat) (s : string) : string :=
  match s with
  | EmptyString => EmptyString
  | String c t =>
      if is_cont c then drop n t
      else match n with
           | O => s
           | S k => drop k t
           end
  end.

(** [sub in s] *)
Fixpoint contains (sub s : string) : bool :=
  prefix sub s ||
  match s with
  | EmptyString => false
  | String _ t => contains sub t
  end.

(** *** White space

    The code points that [str.strip] removes ([Py_UNICODE_ISSPACE]): the
    ASCII controls TAB to CR and FS to US, the space, and the characters
    of the Unicode database that are white space or of bidirectional type
    WS, B or S. *)
Definition whitespace : list N :=
  [ 0x09; 0x0A; 0x0B; 0x0C; 0x0D; 0x1C; 0x1D; 0x1E; 0x1F; 0x20;
    0x85; 0xA0; 0x1680;
    0x2000; 0x2001; 0x2002; 0x2003; 0x2004; 0x2005; 0x2006; 0x2007;
    0x2008; 0x2009; 0x200A;
    0x2028; 0x2029; 0x202F; 0x205F; 0x3000 ].

(** [ch.isspace()] on one character. *)
Definition isspace (ch : string) : bool :=
  match ord ch with
  | Some n => existsb (N.eqb n) whitespace
  | None => false
  end.

Fixpoint lstrip_chars (l : list string) : list string :=
  match l with
  | [] => []
  | ch :: t => if isspace ch then lstrip_chars t else l
  end.

Fixpoint rstrip_chars (l : list string) : list string :=
  match l with
  | [] => []
  | ch :: t =>
      match rstrip_chars t with
      | [] => if isspace ch then [] else [ch]
      | t' => ch :: t'
      end
  end.

(** [s.lstrip()], [s.rstrip()] and [s.strip()] *)
Definition lstrip (s : string) : string := join (lstrip_chars (chars s)).

Definition rstrip (s : string) : string := join (rstrip_chars (chars s)).

Definition strip (s : string) : string :=
  join (rstrip_chars (lstrip_chars (chars s))).

(** *** Lower case

    The tables of the interpreter, from the Unicode character database
    14.0.0.  An entry [(first, last, step, target)] of [lowercase] maps
    the code points [first], [first + step], ... up to [last] to [target],
    [target + step], ...: the simple lowercase mappings, but for the
    capital sigma. *)
Definition lowercase : list (N * N * N * N) :=
  [
    (0x41, 0x5A, 1, 0x61); (0xC0, 0xD6, 1, 0xE0); (0xD8, 0xDE, 1, 0xF8);
    (0x100, 0x12E, 2, 0x101); (0x132, 0x136, 2, 0x133); (0x139, 0x147, 2, 0x13A);
    (0x14A, 0x176, 2, 0x14B); (0x178, 0x178, 1, 0xFF); (0x179, 0x17D, 2, 0x17A);
    (0x181, 0x181, 1, 0x253); (0x182, 0x184, 2, 0x183); (0x186, 0x186, 1, 0x254);
    (0x187, 0x187, 1, 0x188); (0x189, 0x18A, 1, 0x256); (0x18B, 0x18B, 1, 0x18C);
    (0x18E, 0x18E, 1, 0x1DD); (0x18F, 0x18F, 1, 0x259); (0x190, 0x190, 1, 0x25B);
    (0x191, 0x191, 1, 0x192); (0x193, 0x193, 1, 0x260); (0x194, 0x194, 1, 0x263);
    (0x196, 0x196, 1, 0x269); (0x197, 0x197, 1, 0x268); (0x198, 0x198, 1, 0x199);
    (0x19C, 0x19C, 1, 0x26F); (0x19D, 0x19D, 1, 0x272); (0x19F, 0x19F, 1, 0x275);
    (0x1A0, 0x1A4, 2, 0x1A1); (0x1A6, 0x1A6, 1, 0x280); (0x1A7, 0x1A7, 1, 0x1A8);
    (0x1A9, 0x1A9, 1, 0x283); (0x1AC, 0x1AC, 1, 0x1AD); (0x1AE, 0x1AE, 1, 0x288);
    (0x1AF, 0x1AF, 1, 0x1B0); (0x1B1, 0x1B2, 1, 0x28A); (0x1B3, 0x1B5, 2, 0x1B4);
    (0x1B7, 0x1B7, 1, 0x292); (0x1B8, 0x1B8, 1, 0x1B9); (0x1BC, 0x1BC, 1, 0x1BD);
    (0x1C4, 0x1C4, 1, 0x1C6); (0x1C5, 0x1C5, 1, 0x1C6); (0x1C7, 0x1C7, 1, 0x1C9);
    (0x1C8, 0x1C8, 1, 0x1C9); (0x1CA, 0x1CA, 1, 0x1CC); (0x1CB, 0x1DB, 2, 0x1CC);
    (0x1DE, 0x1EE, 2, 0x1DF); (0x1F1, 0x1F1, 1, 0x1F3); (0x1F2, 0x1F4, 2, 0x1F3);
    (0x1F6, 0x1F6, 1, 0x195); (0x1F7, 0x1F7, 1, 0x1BF); (0x1F8, 0x21E, 2, 0x1F9);
    (0x220, 0x220, 1, 0x19E); (0x222, 0x232, 2, 0x223); (0x23A, 0x23A, 1, 0x2C65);
    (0x23B, 0x23B, 1, 0x23C); (0x23D, 0x23D, 1, 0x19A); (0x23E, 0x23E, 1, 0x2C66);
    (0x241, 0x241, 1, 0x242); (0x243, 0x243, 1, 0x180); (0x244, 0x244, 1, 0x289);
    (0x245, 0x245, 1, 0x28C); (0x246, 0x24E, 2, 0x247); (0x370, 0x372, 2, 0x371);
    (0x376, 0x376, 1, 0x377); (0x37F, 0x37F, 1, 0x3F3); (0x386, 0x386, 1, 0x3AC);
    (0x388, 0x38A, 1, 0x3AD); (0x38C, 0x38C, 1, 0x3CC); (0x38E, 0x38F, 1, 0x3CD);
    (0x391, 0x3A1, 1, 0x3B1); (0x3A4, 0x3AB, 1, 0x3C4); (0x3CF, 0x3CF, 1, 0x3D7);
    (0x3D8, 0x3EE, 2, 0x3D9); (0x3F4, 0x3F4, 1, 0x3B8); (0x3F7, 0x3F7, 1, 0x3F8);
    (0x3F9, 0x3F9, 1, 0x3F2); (0x3FA, 0x3FA, 1, 0x3FB); (0x3FD, 0x3FF, 1, 0x37B);
    (0x400, 0x40F, 1, 0x450); (0x410, 0x42F, 1, 0x430); (0x460, 0x480, 2, 0x461);
    (0x48A, 0x4BE, 2, 0x48B); (0x4C0, 0x4C0, 1, 0x4CF); (0x4C1, 0x4CD, 2, 0x4C2);
    (0x4D0, 0x52E, 2, 0x4D1); (0x531, 0x556, 1, 0x561); (0x10A0, 0x10C5, 1, 0x2D00);
    (0x10C7, 0x10C7, 1, 0x2D27); (0x10CD, 0x10CD, 1, 0x2D2D); (0x13A0, 0x13EF, 1, 0xAB70);
    (0x13F0, 0x13F5, 1, 0x13F8); (0x1C90, 0x1CBA, 1, 0x10D0); (0x1CBD, 0x1CBF, 1, 0x10FD);
    (0x1E00, 0x1E94, 2, 0x1E01); (0x1E9E, 0x1E9E, 1, 0xDF); (0x1EA0, 0x1EFE, 2, 0x1EA1);
    (0x1F08, 0x1F0F, 1, 0x1F00); (0x1F18, 0x1F1D, 1, 0x1F10); (0x1F28, 0x1F2F, 1, 0x1F20);
    (0x1F38, 0x1F3F, 1, 0x1F30); (0x1F48, 0x1F4D, 1, 0x1F40); (0x1F59, 0x1F5F, 2, 0x1F51);
    (0x1F68, 0x1F6F, 1, 0x1F60); (0x1F88, 0x1F8F, 1, 0x1F80); (0x1F98, 0x1F9F, 1, 0x1F90);
    (0x1FA8, 0x1FAF, 1, 0x1FA0); (0x1FB8, 0x1FB9, 1, 0x1FB0); (0x1FBA, 0x1FBB, 1, 0x1F70);
    (0x1FBC, 0x1FBC, 1, 0x1FB3); (0x1FC8, 0x1FCB, 1, 0x1F72); (0x1FCC, 0x1FCC, 1, 0x1FC3);
    (0x1FD8, 0x1FD9, 1, 0x1FD0); (0x1FDA, 0x1FDB, 1, 0x1F76); (0x1FE8, 0x1FE9, 1, 0x1FE0);
    (0x1FEA, 0x1FEB, 1, 0x1F7A); (0x1FEC, 0x1FEC, 1, 0x1FE5); (0x1FF8, 0x1FF9, 1, 0x1F78);
    (0x1FFA, 0x1FFB, 1, 0x1F7C); (0x1FFC, 0x1FFC, 1, 0x1FF3); (0x2126, 0x2126, 1, 0x3C9);
    (0x212A, 0x212A, 1, 0x6B); (0x212B, 0x212B, 1, 0xE5); (0x2132, 0x2132, 1, 0x214E);
    (0x2160, 0x216F, 1, 0x2170); (0x2183, 0x2183, 1, 0x2184); (0x24B6, 0x24CF, 1, 0x24D0);
    (0x2C00, 0x2C2F, 1, 0x2C30); (0x2C60, 0x2C60, 1, 0x2C61); (0x2C62, 0x2C62, 1, 0x26B);
    (0x2C63, 0x2C63, 1, 0x1D7D); (0x2C64, 0x2C64, 1, 0x27D); (0x2C67, 0x2C6B, 2, 0x2C68);
    (0x2C6D, 0x2C6D, 1, 0x251); (0x2C6E, 0x2C6E, 1, 0x271); (0x2C6F, 0x2C6F, 1, 0x250);
    (0x2C70, 0x2C70, 1, 0x252); (0x2C72, 0x2C72, 1, 0x2C73); (0x2C75, 0x2C75, 1, 0x2C76);
    (0x2C7E, 0x2C7F, 1, 0x23F); (0x2C80, 0x2CE2, 2, 0x2C81); (0x2CEB, 0x2CED, 2, 0x2CEC);
    (0x2CF2, 0x2CF2, 1, 0x2CF3); (0xA640, 0xA66C, 2, 0xA641); (0xA680, 0xA69A, 2, 0xA681);
    (0xA722, 0xA72E, 2, 0xA723); (0xA732, 0xA76E, 2, 0xA733); (0xA779, 0xA77B, 2, 0xA77A);
    (0xA77D, 0xA77D, 1, 0x1D79); (0xA77E, 0xA786, 2, 0xA77F); (0xA78B, 0xA78B, 1, 0xA78C);
    (0xA78D, 0xA78D, 1, 0x265); (0xA790, 0xA792, 2, 0xA791); (0xA796, 0xA7A8, 2, 0xA797);
    (0xA7AA, 0xA7AA, 1, 0x266); (0xA7AB, 0xA7AB, 1, 0x25C); (0xA7AC, 0xA7AC, 1, 0x261);
    (0xA7AD, 0xA7AD, 1, 0x26C); (0xA7AE, 0xA7AE, 1, 0x26A); (0xA7B0, 0xA7B0, 1, 0x29E);
    (0xA7B1, 0xA7B1, 1, 0x287); (0xA7B2, 0xA7B2, 1, 0x29D); (0xA7B3, 0xA7B3, 1, 0xAB53);
    (0xA7B4, 0xA7C2, 2, 0xA7B5); (0xA7C4, 0xA7C4, 1, 0xA794); (0xA7C5, 0xA7C5, 1, 0x282);
    (0xA7C6, 0xA7C6, 1, 0x1D8E); (0xA7C7, 0xA7C9, 2, 0xA7C8); (0xA7D0, 0xA7D0, 1, 0xA7D1);
    (0xA7D6, 0xA7D8, 2, 0xA7D7); (0xA7F5, 0xA7F5, 1, 0xA7F6); (0xFF21, 0xFF3A, 1, 0xFF41);
    (0x10400, 0x10427, 1, 0x10428); (0x104B0, 0x104D3, 1, 0x104D8); (0x10570, 0x1057A, 1, 0x10597);
    (0x1057C, 0x1058A, 1, 0x105A3); (0x1058C, 0x10592, 1, 0x105B3); (0x10594, 0x10595, 1, 0x105BB);
    (0x10C80, 0x10CB2, 1, 0x10CC0); (0x118A0, 0x118BF, 1, 0x118C0); (0x16E40, 0x16E5F, 1, 0x16E60);
    (0x1E900, 0x1E921, 1, 0x1E922)
  ].

(** The code points with the property [Cased], as ranges. *)
Definition cased_ranges : list (N * N) :=
  [
    (0x41, 0x5A); (0x61, 0x7A); (0xAA, 0xAA); (0xB5, 0xB5);
    (0xBA, 0xBA); (0xC0, 0xD6); (0xD8, 0xF6); (0xF8, 0x1BA);
    (0x1BC, 0x1BF); (0x1C4, 0x293); (0x295, 0x2B8); (0x2C0, 0x2C1);
    (0x2E0, 0x2E4); (0x345, 0x345); (0x370, 0x373); (0x376, 0x377);
    (0x37A, 0x37D); (0x37F, 0x37F); (0x386, 0x386); (0x388, 0x38A);
    (0x38C, 0x38C); (0x38E, 0x3A1); (0x3A3, 0x3F5); (0x3F7, 0x481);
    (0x48A, 0x52F); (0x531, 0x556); (0x560, 0x588); (0x10A0, 0x10C5);
    (0x10C7, 0x10C7); (0x10CD, 0x10CD); (0x10D0, 0x10FA); (0x10FD, 0x10FF);
    (0x13A0, 0x13F5); (0x13F8, 0x13FD); (0x1C80, 0x1C88); (0x1C90, 0x1CBA);
    (0x1CBD, 0x1CBF); (0x1D00, 0x1DBF); (0x1E00, 0x1F15); (0x1F18, 0x1F1D);
    (0x1F20, 0x1F45); (0x1F48, 0x1F4D); (0x1F50, 0x1F57); (0x1F59, 0x1F59);
    (0x1F5B, 0x1F5B); (0x1F5D, 0x1F5D); (0x1F5F, 0x1F7D); (0x1F80, 0x1FB4);
    (0x1FB6, 0x1FBC); (0x1FBE, 0x1FBE); (0x1FC2, 0x1FC4); (0x1FC6, 0x1FCC);
    (0x1FD0, 0x1FD3); (0x1FD6, 0x1FDB); (0x1FE0, 0x1FEC); (0x1FF2, 0x1FF4);
    (0x1FF6, 0x1FFC); (0x2071, 0x2071); (0x207F, 0x207F); (0x2090, 0x209C);
    (0x2102, 0x2102); (0x2107, 0x2107); (0x210A, 0x2113); (0x2115, 0x2115);
    (0x2119, 0x211D); (0x2124, 0x2124); (0x2126, 0x2126); (0x2128, 0x2128);
    (0x212A, 0x212D); (0x212F, 0x2134); (0x2139, 0x2139); (0x213C, 0x213F);
    (0x2145, 0x2149); (0x214E, 0x214E); (0x2160, 0x217F); (0x2183, 0x2184);
    (0x24B6, 0x24E9); (0x2C00, 0x2CE4); (0x2CEB, 0x2CEE); (0x2CF2, 0x2CF3);
    (0x2D00, 0x2D25); (0x2D27, 0x2D27); (0x2D2D, 0x2D2D); (0xA640, 0xA66D);
    (0xA680, 0xA69D); (0xA722, 0xA787); (0xA78B, 0xA78E); (0xA790, 0xA7CA);
    (0xA7D0, 0xA7D1); (0xA7D3, 0xA7D3); (0xA7D5, 0xA7D9); (0xA7F5, 0xA7F6);
    (0xA7F8, 0xA7FA); (0xAB30, 0xAB5A); (0xAB5C, 0xAB68); (0xAB70, 0xABBF);
    (0xFB00, 0xFB06); (0xFB13, 0xFB17); (0xFF21, 0xFF3A); (0xFF41, 0xFF5A);
    (0x10400, 0x1044F); (0x104B0, 0x104D3); (0x104D8, 0x104FB); (0x10570, 0x1057A);
    (0x1057C, 0x1058A); (0x1058C, 0x10592); (0x10594, 0x10595); (0x10597, 0x105A1);
    (0x105A3, 0x105B1); (0x105B3, 0x105B9); (0x105BB, 0x105BC); (0x10780, 0x10780);
    (0x10783, 0x10785); (0x10787, 0x107B0); (0x107B2, 0x107BA); (0x10C80, 0x10CB2);
    (0x10CC0, 0x10CF2); (0x118A0, 0x118DF); (0x16E40, 0x16E7F); (0x1D400, 0x1D454);
    (0x1D456, 0x1D49C); (0x1D49E, 0x1D49F); (0x1D4A2, 0x1D4A2); (0x1D4A5, 0x1D4A6);
    (0x1D4A9, 0x1D4AC); (0x1D4AE, 0x1D4B9); (0x1D4BB, 0x1D4BB); (0x1D4BD, 0x1D4C3);
    (0x1D4C5, 0x1D505); (0x1D507, 0x1D50A); (0x1D50D, 0x1D514); (0x1D516, 0x1D51C);
    (0x1D51E, 0x1D539); (0x1D53B, 0x1D53E); (0x1D540, 0x1D544); (0x1D546, 0x1D546);
    (0x1D54A, 0x1D550); (0x1D552, 0x1D6A5); (0x1D6A8, 0x1D6C0); (0x1D6C2, 0x1D6DA);
    (0x1D6DC, 0x1D6FA); (0x1D6FC, 0x1D714); (0x1D716, 0x1D734); (0x1D736, 0x1D74E);
    (0x1D750, 0x1D76E); (0x1D770, 0x1D788); (0x1D78A, 0x1D7A8); (0x1D7AA, 0x1D7C2);
    (0x1D7C4, 0x1D7CB); (0x1DF00, 0x1DF09); (0x1DF0B, 0x1DF1E); (0x1E900, 0x1E943);
    (0x1F130, 0x1F149); (0x1F150, 0x1F169); (0x1F170, 0x1F189)
  ].

(** The code points with the property [Case_Ignorable], as ranges. *)
Definition case_ignorable_ranges : list (N * N) :=
  [
    (0x27, 0x27); (0x2E, 0x2E); (0x3A, 0x3A); (0x5E, 0x5E);
    (0x60, 0x60); (0xA8, 0xA8); (0xAD, 0xAD); (0xAF, 0xAF);
    (0xB4, 0xB4); (0xB7, 0xB8); (0x2B0, 0x36F); (0x374, 0x375);
    (0x37A, 0x37A); (0x384, 0x385); (0x387, 0x387); (0x483, 0x489);
    (0x559, 0x559); (0x55F, 0x55F); (0x591, 0x5BD); (0x5BF, 0x5BF);
    (0x5C1, 0x5C2); (0x5C4, 0x5C5); (0x5C7, 0x5C7); (0x5F4, 0x5F4);
    (0x600, 0x605); (0x610, 0x61A); (0x61C, 0x61C); (0x640, 0x640);
    (0x64B, 0x65F); (0x670, 0x670); (0x6D6, 0x6DD); (0x6DF, 0x6E8);
    (0x6EA, 0x6ED); (0x70F, 0x70F); (0x711, 0x711); (0x730, 0x74A);
    (0x7A6, 0x7B0); (0x7EB, 0x7F5); (0x7FA, 0x7FA); (0x7FD, 0x7FD);
    (0x816, 0x82D); (0x859, 0x85B); (0x888, 0x888); (0x890, 0x891);
    (0x898, 0x89F); (0x8C9, 0x902); (0x93A, 0x93A); (0x93C, 0x93C);
    (0x941, 0x948); (0x94D, 0x94D); (0x951, 0x957); (0x962, 0x963);
    (0x971, 0x971); (0x981, 0x981); (0x9BC, 0x9BC); (0x9C1, 0x9C4);
    (0x9CD, 0x9CD); (0x9E2, 0x9E3); (0x9FE, 0x9FE); (0xA01, 0xA02);
    (0xA3C, 0xA3C); (0xA41, 0xA42); (0xA47, 0xA48); (0xA4B, 0xA4D);
    (0xA51, 0xA51); (0xA70, 0xA71); (0xA75, 0xA75); (0xA81, 0xA82);
    (0xABC, 0xABC); (0xAC1, 0xAC5); (0xAC7, 0xAC8); (0xACD, 0xACD);
    (0xAE2, 0xAE3); (0xAFA, 0xAFF); (0xB01, 0xB01); (0xB3C, 0xB3C);
    (0xB3F, 0xB3F); (0xB41, 0xB44); (0xB4D, 0xB4D); (0xB55, 0xB56);
    (0xB62, 0xB63); (0xB82, 0xB82); (0xBC0, 0xBC0); (0xBCD, 0xBCD);
    (0xC00, 0xC00); (0xC04, 0xC04); (0xC3C, 0xC3C); (0xC3E, 0xC40);
    (0xC46, 0xC48); (0xC4A, 0xC4D); (0xC55, 0xC56); (0xC62, 0xC63);
    (0xC81, 0xC81); (0xCBC, 0xCBC); (0xCBF, 0xCBF); (0xCC6, 0xCC6);
    (0xCCC, 0xCCD); (0xCE2, 0xCE3); (0xD00, 0xD01); (0xD3B, 0xD3C);
    (0xD41, 0xD44); (0xD4D, 0xD4D); (0xD62, 0xD63); (0xD81, 0xD81);
    (0xDCA, 0xDCA); (0xDD2, 0xDD4); (0xDD6, 0xDD6); (0xE31, 0xE31);
    (0xE34, 0xE3A); (0xE46, 0xE4E); (0xEB1, 0xEB1); (0xEB4, 0xEBC);
    (0xEC6, 0xEC6); (0xEC8, 0xECD); (0xF18, 0xF19); (0xF35, 0xF35);
    (0xF37, 0xF37); (0xF39, 0xF39); (0xF71, 0xF7E); (0xF80, 0xF84);
    (0xF86, 0xF87); (0xF8D, 0xF97); (0xF99, 0xFBC); (0xFC6, 0xFC6);
    (0x102D, 0x1030); (0x1032, 0x1037); (0x1039, 0x103A); (0x103D, 0x103E);
    (0x1058, 0x1059); (0x105E, 0x1060); (0x1071, 0x1074); (0x1082, 0x1082);
    (0x1085, 0x1086); (0x108D, 0x108D); (0x109D, 0x109D); (0x10FC, 0x10FC);
    (0x135D, 0x135F); (0x1712, 0x1714); (0x1732, 0x1733); (0x1752, 0x1753);
    (0x1772, 0x1773); (0x17B4, 0x17B5); (0x17B7, 0x17BD); (0x17C6, 0x17C6);
    (0x17C9, 0x17D3); (0x17D7, 0x17D7); (0x17DD, 0x17DD); (0x180B, 0x180F);
    (0x1843, 0x1843); (0x1885, 0x1886); (0x18A9, 0x18A9); (0x1920, 0x1922);
    (0x1927, 0x1928); (0x1932, 0x1932); (0x1939, 0x193B); (0x1A17, 0x1A18);
    (0x1A1B, 0x1A1B); (0x1A56, 0x1A56); (0x1A58, 0x1A5E); (0x1A60, 0x1A60);
    (0x1A62, 0x1A62); (0x1A65, 0x1A6C); (0x1A73, 0x1A7C); (0x1A7F, 0x1A7F);
    (0x1AA7, 0x1AA7); (0x1AB0, 0x1ACE); (0x1B00, 0x1B03); (0x1B34, 0x1B34);
    (0x1B36, 0x1B3A); (0x1B3C, 0x1B3C); (0x1B42, 0x1B42); (0x1B6B, 0x1B73);
    (0x1B80, 0x1B81); (0x1BA2, 0x1BA5); (0x1BA8, 0x1BA9); (0x1BAB, 0x1BAD);
    (0x1BE6, 0x1BE6); (0x1BE8, 0x1BE9); (0x1BED, 0x1BED); (0x1BEF, 0x1BF1);
    (0x1C2C, 0x1C33); (0x1C36, 0x1C37); (0x1C78, 0x1C7D); (0x1CD0, 0x1CD2);
    (0x1CD4, 0x1CE0); (0x1CE2, 0x1CE8); (0x1CED, 0x1CED); (0x1CF4, 0x1CF4);
    (0x1CF8, 0x1CF9); (0x1D2C, 0x1D6A); (0x1D78, 0x1D78); (0x1D9B, 0x1DFF);
    (0x1FBD, 0x1FBD); (0x1FBF, 0x1FC1); (0x1FCD, 0x1FCF); (0x1FDD, 0x1FDF);
    (0x1FED, 0x1FEF); (0x1FFD, 0x1FFE); (0x200B, 0x200F); (0x2018, 0x2019);
    (0x2024, 0x2024); (0x2027, 0x2027); (0x202A, 0x202E); (0x2060, 0x2064);
    (0x2066, 0x206F); (0x2071, 0x2071); (0x207F, 0x207F); (0x2090, 0x209C);
    (0x20D0, 0x20F0); (0x2C7C, 0x2C7D); (0x2CEF, 0x2CF1); (0x2D6F, 0x2D6F);
    (0x2D7F, 0x2D7F); (0x2DE0, 0x2DFF); (0x2E2F, 0x2E2F); (0x3005, 0x3005);
    (0x302A, 0x302D); (0x3031, 0x3035); (0x303B, 0x303B); (0x3099, 0x309E);
    (0x30FC, 0x30FE); (0xA015, 0xA015); (0xA4F8, 0xA4FD); (0xA60C, 0xA60C);
    (0xA66F, 0xA672); (0xA674, 0xA67D); (0xA67F, 0xA67F); (0xA69C, 0xA69F);
    (0xA6F0, 0xA6F1); (0xA700, 0xA721); (0xA770, 0xA770); (0xA788, 0xA78A);
    (0xA7F2, 0xA7F4); (0xA7F8, 0xA7F9); (0xA802, 0xA802); (0xA806, 0xA806);
    (0xA80B, 0xA80B); (0xA825, 0xA826); (0xA82C, 0xA82C); (0xA8C4, 0xA8C5);
    (0xA8E0, 0xA8F1); (0xA8FF, 0xA8FF); (0xA926, 0xA92D); (0xA947, 0xA951);
    (0xA980, 0xA982); (0xA9B3, 0xA9B3); (0xA9B6, 0xA9B9); (0xA9BC, 0xA9BD);
    (0xA9CF, 0xA9CF); (0xA9E5, 0xA9E6); (0xAA29, 0xAA2E); (0xAA31, 0xAA32);
    (0xAA35, 0xAA36); (0xAA43, 0xAA43); (0xAA4C, 0xAA4C); (0xAA70, 0xAA70);
    (0xAA7C, 0xAA7C); (0xAAB0, 0xAAB0); (0xAAB2, 0xAAB4); (0xAAB7, 0xAAB8);
    (0xAABE, 0xAABF); (0xAAC1, 0xAAC1); (0xAADD, 0xAADD); (0xAAEC, 0xAAED);
    (0xAAF3, 0xAAF4); (0xAAF6, 0xAAF6); (0xAB5B, 0xAB5F); (0xAB69, 0xAB6B);
    (0xABE5, 0xABE5); (0xABE8, 0xABE8); (0xABED, 0xABED); (0xFB1E, 0xFB1E);
    (0xFBB2, 0xFBC2); (0xFE00, 0xFE0F); (0xFE13, 0xFE13); (0xFE20, 0xFE2F);
    (0xFE52, 0xFE52); (0xFE55, 0xFE55); (0xFEFF, 0xFEFF); (0xFF07, 0xFF07);
    (0xFF0E, 0xFF0E); (0xFF1A, 0xFF1A); (0xFF3E, 0xFF3E); (0xFF40, 0xFF40);
    (0xFF70, 0xFF70); (0xFF9E, 0xFF9F); (0xFFE3, 0xFFE3); (0xFFF9, 0xFFFB);
    (0x101FD, 0x101FD); (0x102E0, 0x102E0); (0x10376, 0x1037A); (0x10780, 0x10785);
    (0x10787, 0x107B0); (0x107B2, 0x107BA); (0x10A01, 0x10A03); (0x10A05, 0x10A06);
    (0x10A0C, 0x10A0F); (0x10A38, 0x10A3A); (0x10A3F, 0x10A3F); (0x10AE5, 0x10AE6);
    (0x10D24, 0x10D27); (0x10EAB, 0x10EAC); (0x10F46, 0x10F50); (0x10F82, 0x10F85);
    (0x11001, 0x11001); (0x11038, 0x11046); (0x11070, 0x11070); (0x11073, 0x11074);
    (0x1107F, 0x11081); (0x110B3, 0x110B6); (0x110B9, 0x110BA); (0x110BD, 0x110BD);
    (0x110C2, 0x110C2); (0x110CD, 0x110CD); (0x11100, 0x11102); (0x11127, 0x1112B);
    (0x1112D, 0x11134); (0x11173, 0x11173); (0x11180, 0x11181); (0x111B6, 0x111BE);
    (0x111C9, 0x111CC); (0x111CF, 0x111CF); (0x1122F, 0x11231); (0x11234, 0x11234);
    (0x11236, 0x11237); (0x1123E, 0x1123E); (0x112DF, 0x112DF); (0x112E3, 0x112EA);
    (0x11300, 0x11301); (0x1133B, 0x1133C); (0x11340, 0x11340); (0x11366, 0x1136C);
    (0x11370, 0x11374); (0x11438, 0x1143F); (0x11442, 0x11444); (0x11446, 0x11446);
    (0x1145E, 0x1145E); (0x114B3, 0x114B8); (0x114BA, 0x114BA); (0x114BF, 0x114C0);
    (0x114C2, 0x114C3); (0x115B2, 0x115B5); (0x115BC, 0x115BD); (0x115BF, 0x115C0);
    (0x115DC, 0x115DD); (0x11633, 0x1163A); (0x1163D, 0x1163D); (0x1163F, 0x11640);
    (0x116AB, 0x116AB); (0x116AD, 0x116AD); (0x116B0, 0x116B5); (0x116B7, 0x116B7);
    (0x1171D, 0x1171F); (0x11722, 0x11725); (0x11727, 0x1172B); (0x1182F, 0x11837);
    (0x11839, 0x1183A); (0x1193B, 0x1193C); (0x1193E, 0x1193E); (0x11943, 0x11943);
    (0x119D4, 0x119D7); (0x119DA, 0x119DB); (0x119E0, 0x119E0); (0x11A01, 0x11A0A);
    (0x11A33, 0x11A38); (0x11A3B, 0x11A3E); (0x11A47, 0x11A47); (0x11A51, 0x11A56);
    (0x11A59, 0x11A5B); (0x11A8A, 0x11A96); (0x11A98, 0x11A99); (0x11C30, 0x11C36);
    (0x11C38, 0x11C3D); (0x11C3F, 0x11C3F); (0x11C92, 0x11CA7); (0x11CAA, 0x11CB0);
    (0x11CB2, 0x11CB3); (0x11CB5, 0x11CB6); (0x11D31, 0x11D36); (0x11D3A, 0x11D3A);
    (0x11D3C, 0x11D3D); (0x11D3F, 0x11D45); (0x11D47, 0x11D47); (0x11D90, 0x11D91);
    (0x11D95, 0x11D95); (0x11D97, 0x11D97); (0x11EF3, 0x11EF4); (0x13430, 0x13438);
    (0x16AF0, 0x16AF4); (0x16B30, 0x16B36); (0x16B40, 0x16B43); (0x16F4F, 0x16F4F);
    (0x16F8F, 0x16F9F); (0x16FE0, 0x16FE1); (0x16FE3, 0x16FE4); (0x1AFF0, 0x1AFF3);
    (0x1AFF5, 0x1AFFB); (0x1AFFD, 0x1AFFE); (0x1BC9D, 0x1BC9E); (0x1BCA0, 0x1BCA3);
    (0x1CF00, 0x1CF2D); (0x1CF30, 0x1CF46); (0x1D167, 0x1D169); (0x1D173, 0x1D182);
    (0x1D185, 0x1D18B); (0x1D1AA, 0x1D1AD); (0x1D242, 0x1D244); (0x1DA00, 0x1DA36);
    (0x1DA3B, 0x1DA6C); (0x1DA75, 0x1DA75); (0x1DA84, 0x1DA84); (0x1DA9B, 0x1DA9F);
    (0x1DAA1, 0x1DAAF); (0x1E000, 0x1E006); (0x1E008, 0x1E018); (0x1E01B, 0x1E021);
    (0x1E023, 0x1E024); (0x1E026, 0x1E02A); (0x1E130, 0x1E13D); (0x1E2AE, 0x1E2AE);
    (0x1E2EC, 0x1E2EF); (0x1E8D0, 0x1E8D6); (0x1E944, 0x1E94B); (0x1F3FB, 0x1F3FF);
    (0xE0001, 0xE0001); (0xE0020, 0xE007F); (0xE0100, 0xE01EF)
  ].

Definition in_ranges (ranges : list (N * N)) (n : N) : bool :=
  existsb (fun r => (fst r <=? n) && (n <=? snd r)) ranges.

Definition is_cased (ch : string) : bool :=
  match ord ch with
  | Some n => in_ranges cased_ranges n
  | None => false
  end.

Definition is_case_ignorable (ch : string) : bool :=
  match ord ch with
  | Some n => in_ranges case_ignorable_ranges n
  | None => false
  end.

Definition maps (e : N * N * N * N) (n : N) : bool :=
  let '(first, last, step, _) := e in
  (first <=? n) && (n <=? last) && ((n - first) mod step =? 0).

(** The full lowercase mapping of a code point, when it has one: the
    capital I with dot above is the one code point that maps to two. *)
Definition to_lower_full (n : N) : option (list N) :=
  if n =? 0x130 then Some [0x69; 0x307]
  else match find (fun e => maps e n) lowercase with
       | Some (first, _, _, target) => Some [target + (n - first)]
       | None => None
       end.

(** The first character of a list that is not case-ignorable. *)
Fixpoint skip_ignorable (l : list string) : option string :=
  match l with
  | [] => None
  | ch :: t => if is_case_ignorable ch then skip_ignorable t else Some ch
  end.

(** A capital sigma is final when a cased character comes before it and
    none comes after it, case-ignorable characters apart; [before] holds
    the characters before it, the nearest first. *)
Definition final_sigma (before after : list string) : bool :=
  match skip_ignorable before with
  | Some ch =>
      is_cased ch
      && match skip_ignorable after with
         | Some ch' => negb (is_cased ch')
         | None => true
         end
  | None => false
  end.

(** The lowercase form of one character of a string. *)
Definition lower_char (before : list string) (ch : string)
    (after : list string) : list string :=
  match ord ch with
  | Some n =>
      if n =? 0x3A3
      then [chr (if final_sigma before after then 0x3C2 else 0x3C3)]
      else match to_lower_full n with
           | Some l => map chr l
           | None => [ch]
           end
  | None => [ch]
  end.

Fixpoint lower_chars (before l : list string) : list string :=
  match l with
  | [] => []
  | ch :: after =>
      (lower_char before ch after ++ lower_chars (ch :: before) after)%list
  end.

(** [s.lower()] *)
Definition lower (s : string) : string := join (lower_chars [] (chars s)).

(** [str(n)] for an integer. *)
Definition of_Z (z : Z) : string := NilEmpty.string_of_int (Z.to_int z).

(** The double quote character, and a string of one character. *)
Definition dquote : ascii := ascii_of_nat 34.
Definition char (c : ascii) : string := String c EmptyString.

End PyStr.

(** ** Python values, exceptions and effects *)

Module Py.
Import PyStr.

(** A value decoded from JSON ([response.json()]).  Numbers are the
    integers; a [dict] keeps its items in insertion order. *)
Inductive json : Type :=
| JNull
| JBool (b : bool)
| JInt (z : Z)
| JStr (s : string)
| JList (l : list json)
| JObj (items : list (string * json)).

Definition dict : Type := list (string * json).

(** Truth value of a value, as tested by [if v] and [not v]. *)
Definition truthy (v : json) : bool :=
  match v with
  | JNull => false
  | JBool b => b
  | JInt z => negb (z =? 0)%Z
  | JStr s => negb (s =? EmptyString)
  | JList l => match l with [] => false | _ => true end
  | JObj d => match d with [] => false | _ => true end
  end.

(** [v is None] *)
Definition is_None (v : json) : bool :=
  match v with JNull => true | _ => false end.

(** Lookup of a key in a [dict]. *)
Fixpoint lookup (k : string) (d : dict) : option json :=
  match d with
  | [] => None
  | (k', v) :: d' => if k' =? k then Some v else lookup k d'
  end.

(** [d.get(k, default)] and [d.get(k)] *)
Definition get_default (d : dict) (k : string) (default : json) : json :=
  match lookup k d with Some v => v | None => default end.

Definition get (d : dict) (k : string) : json := get_default d k JNull.

(** The classes of the exceptions that carry no response.  [ConnectTimeout]
    derives from both [ConnectionError] and [Timeout]; [JSONDecodeError] is
    the class of [requests], which derives from [RequestException] and from
    [ValueError]. *)
Inductive exn_class : Type :=
| ConnectTimeout | ReadTimeout | Timeout | ConnectionError
| JSONDecodeError | RequestException
| ValueError | AttributeError | TypeError | KeyError | AssertionError
| OtherException.

Inductive err : Type := Err (c : exn_class) (msg : string).

(** A [requests.Response]: status code, the message that
    [raise_for_status] gives to its [HTTPError], the body as text, and what
    [.json()] does (raise, or return the decoded body). *)
Record Response : Type := mkResponse {
  status_code : Z;
  status_msg : string;
  text : string;
  json_body : err + json
}.

(** A raised exception.  [requests.exceptions.HTTPError] is raised by
    [raise_for_status] only, which attaches the response. *)
Inductive exn : Type :=
| HTTPError (msg : string) (response : Response)
| Exn (e : err).

(** [str(e)] *)
Definition exn_msg (e : exn) : string :=
  match e with
  | HTTPError msg _ => msg
  | Exn (Err _ msg) => msg
  end.


(** [isinstance(e, requests.exceptions.Timeout)] *)
Definition is_Timeout (e : exn) : bool :=
  match e with
  | Exn (Err (ConnectTimeout | ReadTimeout | Timeout) _) => true
  | _ => false
  end.

(** [isinstance(e, requests.exceptions.RequestException)] *)
Definition is_RequestException (e : exn) : bool :=
  match e with
  | HTTPError _ _ => true
  | Exn (Err (ConnectTimeout | ReadTimeout | Timeout | ConnectionError
             | JSONDecodeError | RequestException) _) => true
  | Exn _ => false
  end.

(** The outcome of a call: a value, or a raised exception. *)
Inductive result (A : Type) : Type :=
| Ok (a : A)
| Raise (e : exn).
Arguments Ok {A} a.
Arguments Raise {A} e.

(** The payload posted to the scoring backend. *)
Record Answer : Type := mkAnswer {
  ans_task_id : json;
  ans_submitted_answer : string
}.

Record Submission : Type := mkSubmission {
  sub_username : string;
  sub_agent_code : string;
  sub_answers : list Answer
}.

(** What the run does that is visible outside of it, in order: the HTTP
    requests, and each call of [GaiaAgent.answer]. *)
Inductive event : Type :=
| EvGet (url : string)
| EvAgent (question : json) (metadata : dict)
| EvInference (url : string) (authorization : string) (prompt : string)
| EvSubmit (url : string) (data : Submission).

Definition trace : Type := list event.

(** The process environment ([os.getenv]). *)
Record Env : Type := mkEnv {
  env_HF_API_TOKEN : option string;
  env_HF_MODEL_ID : option string;
  env_SPACE_HOST : option string;
  env_SPACE_ID : option string
}.

(** Everything the program gets from outside of its source: the
    environment, the network (the answer to a request may depend on all
    that happened before it), and the interpreter ([repr] of a value, and
    the exceptions it raises on values of the wrong type). *)
Record World : Type := mkWorld {
  world_env : Env;
  requests_get : trace -> string -> result Response;
  requests_post_inference :
    trace -> string -> string -> string -> result Response;
  requests_post_submit : trace -> string -> Submission -> result Response;
  py_repr : json -> string;
  no_attribute : json -> string -> string;
  type_error : json -> string;
  not_a_str : json -> exn
}.

(** [str(v)]: a string is itself, any other value is shown by [repr]. *)
Definition py_str (w : World) (v : json) : string :=
  match v with JStr s => s | _ => py_repr w v end.

(** A computation: it reads and extends the trace, and returns or
    raises. *)
Definition comp (A : Type) : Type := trace -> trace * result A.

Definition ret {A} (a : A) : comp A := fun t => (t, Ok a).

Definition raise {A} (e : exn) : comp A := fun t => (t, Raise e).

Definition bind {A B} (c : comp A) (f : A -> comp B) : comp B :=
  fun t =>
    match c t with
    | (t', Ok a) => f a t'
    | (t', Raise e) => (t', Raise e)
    end.

(** [try: c  except Exception as e: h e] *)
Definition catch {A} (c : comp A) (h : exn -> comp A) : comp A :=
  fun t =>
    match c t with
    | (t', Ok a) => (t', Ok a)
    | (t', Raise e) => h e t'
    end.

(** [try: c] with the outcome handed to the code that follows, for an
    [except] clause that returns from the function. *)
Definition attempt {A} (c : comp A) : comp (result A) :=
  fun t => let (t', r) := c t in (t', Ok r).

(** A request: the world answers from the trace so far, and the request is
    appended to the trace. *)
Definition request {A} (ev : event) (answer : trace -> result A) : comp A :=
  fun t => ((t ++ [ev])%list, answer t).

(** Recording a call that stays inside the program. *)
Definition record (ev : event) : comp unit := fun t => ((t ++ [ev])%list, Ok tt).

Definition lift {A} (r : result A) : comp A := fun t => (t, r).

(** A computation that sends no request leaves the trace as it is. *)
Definition silent {A} (c : comp A) : Prop := forall t, fst (c t) = t.

End Py.

Declare Scope comp_scope.
Delimit Scope comp_scope with comp.
Notation "x <- c ;; k" := (Py.bind c (fun x => k))
  (at level 61, c at next level, right associativity) : comp_scope.
Notation "c ;;; k" := (Py.bind c (fun _ => k))
  (at level 61, right associativity) : comp_scope.

(** ** The tool table of [SimpleLLMAgent] *)

Module Agent.
Import PyStr Py.
Local Open Scope comp_scope.

(** The needle of tool 3: the reversed sentence, which has the word
    [tfel] between double quotes. *)
Definition reversed_left : string :=
  ".rewsna eht sa " ++ char dquote ++ "tfel" ++ char dquote
  ++ " drow eht fo etisoppo eht etirw".

(** [SimpleLLMAgent._gaia_tools]: the chain of [if ... in p] tests, in the
    order of the source; [None] when no tool matches. *)
Definition _gaia_tools (prompt : string) : option string :=
  let p := lower prompt in
  if contains "mercedes sosa" p && contains "studio albums" p
     && contains "2000 and 2009" p then Some "3"
  else if contains "l1vxcyzayym" p && contains "bird species" p then Some "3"
  else if contains reversed_left p then Some "Right"
  else if contains "review the chess position provided in the image" p
  then Some "Rd5"
  else if contains "featured article on english wikipedia about a dinosaur" p
  then Some "FunkMonk"
  else if contains
            "given this table defining * on the set s = {a, b, c, d, e}" p
  then Some "b,e"
  else if contains "teal'c" p && contains "isn't that hot" p
  then Some "Extremely"
  else if contains "equine veterinarian" p && contains "1.e exercises" p
  then Some "Louvrier"
  else if contains "i'm making a grocery list for my mom" p
          && contains "milk, eggs, flour" p
  then Some
    "broccoli, celery, corn, green beans, lettuce, sweet potatoes, zucchini"
  else if contains "strawberry pie.mp3" p
  then Some ("cornstarch, freshly squeezed lemon juice, granulated sugar, "
             ++ "pure vanilla extract, ripe strawberries")
  else if contains
            "actor who played ray in the polish-language version of everybody loves raymond"
            p
  then Some "Wojciech"
  else if contains "final numeric output from the attached python code" p
  then Some "0"
  else if contains "yankee with the most walks in the 1977 regular season" p
  then Some "519"
  else if contains "homework.mp3" p && contains "page numbers" p
  then Some "132, 133, 134, 197, 245"
  else if contains "carolyn collins petersen" p
          && contains "universe today" p && contains "arendt" p
  then Some "80GSFC21M0002"
  else if contains
            "vietnamese specimens described by kuznetzov in nedoshivina's 2010 paper"
            p
  then Some "Saint Petersburg"
  else if contains "1928 summer olympics" p
          && contains "least number of athletes" p
  then Some "CUB"
  else if contains
            "pitchers with the number before and after taishō tamai's number"
            p
  then Some "Yoshida, Uehara"
  else if contains
            "attached excel file contains the sales of menu items for a local fast-food chain"
            p
  then Some "89706.00"
  else if contains "only malko competition recipient from the 20th century" p
  then Some "Claus"
  else None.

(** The same tools as data, following the specification's AnswerTable: an
    ordered list of rules, each a conjunction of required substrings with
    its answer; the first rule that holds on the normalized text wins. *)
Record AnswerRule : Type := mkRule {
  needles : list string;
  rule_answer : string
}.

Definition holds (r : AnswerRule) (p : string) : bool :=
  forallb (fun n => contains n p) (needles r).

Definition AnswerTable : list AnswerRule :=
  [ mkRule ["mercedes sosa"; "studio albums"; "2000 and 2009"] "3";
    mkRule ["l1vxcyzayym"; "bird species"] "3";
    mkRule [reversed_left] "Right";
    mkRule ["review the chess position provided in the image"] "Rd5";
    mkRule ["featured article on english wikipedia about a dinosaur"]
      "FunkMonk";
    mkRule ["given this table defining * on the set s = {a, b, c, d, e}"]
      "b,e";
    mkRule ["teal'c"; "isn't that hot"] "Extremely";
    mkRule ["equine veterinarian"; "1.e exercises"] "Louvrier";
    mkRule ["i'm making a grocery list for my mom"; "milk, eggs, flour"]
      "broccoli, celery, corn, green beans, lettuce, sweet potatoes, zucchini";
    mkRule ["strawberry pie.mp3"]
      ("cornstarch, freshly squeezed lemon juice, granulated sugar, "
       ++ "pure vanilla extract, ripe strawberries");
    mkRule
      ["actor who played ray in the polish-language version of everybody loves raymond"]
      "Wojciech";
    mkRule ["final numeric output from the attached python code"] "0";
    mkRule ["yankee with the most walks in the 1977 regular season"] "519";
    mkRule ["homework.mp3"; "page numbers"] "132, 133, 134, 197, 245";
    mkRule ["carolyn collins petersen"; "universe today"; "arendt"]
      "80GSFC21M0002";
    mkRule
      ["vietnamese specimens described by kuznetzov in nedoshivina's 2010 paper"]
      "Saint Petersburg";
    mkRule ["1928 summer olympics"; "least number of athletes"] "CUB";
    mkRule
      ["pitchers with the number before and after taishō tamai's number"]
      "Yoshida, Uehara";
    mkRule
      ["attached excel file contains the sales of menu items for a local fast-food chain"]
      "89706.00";
    mkRule ["only malko competition recipient from the 20th century"] "Claus"
  ].

(** [match] of the specification, on a text that is already normalized. *)
Fixpoint first_match (rules : list AnswerRule) (p : string) : option string :=
  match rules with
  | [] => None
  | r :: rest => if holds r p then Some (rule_answer r) else first_match rest p
  end.

Definition table_match (p : string) : option string :=
  first_match AnswerTable p.

Section WithWorld.

Variable w : World.

(** The module constants [HF_API_TOKEN] and [HF_MODEL_ID]. *)
Definition HF_API_TOKEN : option string := env_HF_API_TOKEN (world_env w).

Definition HF_MODEL_ID : string :=
  match env_HF_MODEL_ID (world_env w) with
  | Some m => m
  | None => "gpt2"
  end.

(** Truth value of an optional string ([None] and the empty string are
    false), and its [str()]. *)
Definition truthy_opt (o : option string) : bool :=
  match o with
  | Some s => negb (s =? EmptyString)
  | None => false
  end.

Definition str_opt (o : option string) : string :=
  match o with Some s => s | None => "None" end.

Record SimpleLLMAgent : Type := mkSimpleLLMAgent {
  api_url : option string
}.

(** [SimpleLLMAgent.__init__] *)
Definition SimpleLLMAgent_init : SimpleLLMAgent :=
  if truthy_opt HF_API_TOKEN
  then mkSimpleLLMAgent
         (Some ("https://api-inference.huggingface.co/models/" ++ HF_MODEL_ID))
  else mkSimpleLLMAgent None.

(** [create_agent] *)
Definition create_agent : SimpleLLMAgent := SimpleLLMAgent_init.

(** [resp.raise_for_status()] *)
Definition raise_for_status (resp : Response) : comp unit :=
  if ((400 <=? status_code resp) && (status_code resp <? 600))%Z
  then raise (HTTPError (status_msg resp) resp)
  else ret tt.

(** [resp.json()] *)
Definition response_json (resp : Response) : comp json :=
  match json_body resp with
  | inl e => raise (Exn e)
  | inr v => ret v
  end.

(** [key in v] for a string [key] *)
Definition py_in (key : string) (v : json) : comp bool :=
  match v with
  | JObj d => ret (match lookup key d with Some _ => true | None => false end)
  | JList l =>
      ret (existsb (fun x => match x with
                             | JStr s => s =? key
                             | _ => false
                             end) l)
  | JStr s => ret (contains key s)
  | _ => raise (Exn (Err TypeError (type_error w v)))
  end.

(** [v[key]] for a string [key] *)
Definition getitem (v : json) (key : string) : comp json :=
  match v with
  | JObj d =>
      match lookup key d with
      | Some x => ret x
      | None => raise (Exn (Err KeyError (py_repr w (JStr key))))
      end
  | _ => raise (Exn (Err TypeError (type_error w v)))
  end.

(** [v.strip()] *)
Definition str_strip (v : json) : comp string :=
  match v with
  | JStr s => ret (strip s)
  | _ => raise (Exn (Err AttributeError (no_attribute w v "strip")))
  end.

(** [SimpleLLMAgent._call_hf] *)
Definition _call_hf (self : SimpleLLMAgent) (prompt : string) : comp string :=
  match api_url self with
  | None => raise (Exn (Err AssertionError EmptyString))
  | Some url =>
      let authorization := "Bearer " ++ str_opt HF_API_TOKEN in
      resp <- request (EvInference url authorization prompt)
                (fun t =>
                   requests_post_inference w t url authorization prompt) ;;
      raise_for_status resp ;;;
      data <- response_json resp ;;
      text <- match data with
              | JList (first :: _) =>
                  found <- py_in "generated_text" first ;;
                  if found then getitem first "generated_text"
                  else ret (JStr (py_str w data))
              | _ => ret (JStr (py_str w data))
              end ;;
      str_strip text
  end.

(** [SimpleLLMAgent.run] *)
Definition run (self : SimpleLLMAgent) (prompt : string) (metadata : dict)
  : comp string :=
  match _gaia_tools prompt with
  | Some tool_answer => ret tool_answer
  | None =>
      if truthy_opt (api_url self) && truthy_opt HF_API_TOKEN
      then catch (_call_hf self prompt) (fun _ => ret "I don't know")
      else ret "I don't know"
  end.

End WithWorld.

End Agent.

(** ** The evaluation runner of [app.py] *)

Module Runner.
Import PyStr Py Agent.
Local Open Scope comp_scope.

Definition DEFAULT_API_URL : string :=
  "https://agents-course-unit4-scoring.hf.space".

(** The line feed character, as a string. *)
Definition nl : string := char (ascii_of_nat 10).

(** A row of [results_log]: the columns [Task ID], [Question] and
    [Submitted Answer]. *)
Record Row : Type := mkRow {
  row_task_id : json;
  row_question : json;
  row_submitted_answer : string
}.

(** [gr.OAuthProfile] *)
Record Profile : Type := mkProfile {
  username : string
}.

Record GaiaAgent : Type := mkGaiaAgent {
  core_agent : SimpleLLMAgent
}.

(** The accumulators of the evaluation loop: [answers_payload] and
    [results_log]. *)
Definition accum : Type := (list Answer * list Row)%type.

Section WithWorld.

Variable w : World.

(** [GaiaAgent.__init__] *)
Definition GaiaAgent_init : GaiaAgent := mkGaiaAgent (create_agent w).

(** [GaiaAgent.answer].  The method slices its argument ([[:80]]) and the
    core agent lowercases it, so that a question that is not a [str] makes
    the interpreter raise before any request is sent. *)
Definition answer (self : GaiaAgent) (question_text : json) (metadata : dict)
  : comp string :=
  record (EvAgent question_text metadata) ;;;
  match question_text with
  | JStr s =>
      result <- run w (core_agent self) s metadata ;;
      ret (strip result)
  | _ => raise (not_a_str w question_text)
  end.

(** [fetch_questions] *)
Definition fetch_questions (api_url : string) : comp (list json) :=
  let questions_url := api_url ++ "/questions" in
  response <- request (EvGet questions_url)
                (fun t => requests_get w t questions_url) ;;
  raise_for_status response ;;;
  data <- response_json response ;;
  match data with
  | JList (item :: items) => ret (item :: items)
  | _ =>
      raise (Exn (Err ValueError
                    "Questions endpoint returned empty or invalid payload."))
  end.

(** [submit_answers] *)
Definition submit_answers (api_url username agent_code_url : string)
    (answers_payload : list Answer) : comp json :=
  let submit_url := api_url ++ "/submit" in
  let submission_data :=
    mkSubmission (strip username) agent_code_url answers_payload in
  response <- request (EvSubmit submit_url submission_data)
                (fun t => requests_post_submit w t submit_url submission_data) ;;
  raise_for_status response ;;;
  response_json response.

(** [k not in {"task_id", "question"}] *)
Definition is_metadata_key (k : string) : bool :=
  negb ((k =? "task_id") || (k =? "question")).

(** The body of the loop [for item in questions_data] *)
Definition loop_body (agent : GaiaAgent) (item : json) (acc : accum)
  : comp accum :=
  let '(answers_payload, results_log) := acc in
  match item with
  | JObj d =>
      let task_id := get d "task_id" in
      let question_text := get d "question" in
      if negb (truthy task_id) || is_None question_text
      then ret acc
      else
        let metadata := filter (fun kv => is_metadata_key (fst kv)) d in
        catch
          (a <- answer agent question_text metadata ;;
           ret ((answers_payload ++ [mkAnswer task_id a])%list,
                (results_log ++ [mkRow task_id question_text a])%list))
          (fun e =>
             let error_answer := "AGENT ERROR: " ++ exn_msg e in
             ret (answers_payload,
                  (results_log
                     ++ [mkRow task_id question_text error_answer])%list))
  | _ => raise (Exn (Err AttributeError (no_attribute w item "get")))
  end.

Fixpoint loop (agent : GaiaAgent) (questions_data : list json) (acc : accum)
  : comp accum :=
  match questions_data with
  | [] => ret acc
  | item :: rest =>
      acc' <- loop_body agent item acc ;;
      loop agent rest acc'
  end.

(** The status built after a successful submission. *)
Definition success_status (username : string) (result_data : json)
  : comp string :=
  match result_data with
  | JObj d =>
      ret ("Submission Successful!" ++ nl
           ++ "User: " ++ py_str w (get_default d "username" (JStr username))
           ++ nl
           ++ "Overall Score: "
           ++ py_str w (get_default d "score" (JStr "N/A")) ++ "% ("
           ++ py_str w (get_default d "correct_count" (JStr "?")) ++ "/"
           ++ py_str w (get_default d "total_attempted" (JStr "?"))
           ++ " correct)" ++ nl
           ++ "Message: "
           ++ py_str w (get_default d "message" (JStr "No message received.")))
  | _ => raise (Exn (Err AttributeError (no_attribute w result_data "get")))
  end.

(** The handler [except requests.exceptions.HTTPError as e] *)
Definition http_error_status (response : Response) : string :=
  let detail :=
    "Server responded with status " ++ of_Z (status_code response) ++ "." in
  let detail :=
    match json_body response with
    | inr (JObj err_json) =>
        detail ++ " Detail: "
        ++ py_str w (get_default err_json "detail" (JStr (text response)))
    | _ => detail ++ " Response: " ++ take 500 (text response)
    end in
  "Submission Failed: " ++ detail.

(** The [except] clauses after the submission, in their order. *)
Definition failure_status (e : exn) : string :=
  match e with
  | HTTPError _ response => http_error_status response
  | Exn _ =>
      if is_Timeout e then "Submission Failed: The request timed out."
      else if is_RequestException e
      then "Submission Failed: Network error - " ++ exn_msg e
      else "An unexpected error occurred during submission: " ++ exn_msg e
  end.

(** The link to the code of the Space, empty outside of a Space. *)
Definition agent_code_url : string :=
  let space_id := env_SPACE_ID (world_env w) in
  if truthy_opt space_id
  then "https://huggingface.co/spaces/" ++ str_opt space_id ++ "/tree/main"
  else EmptyString.

(** The body of the [try] of step 4: the submission, then the status built
    from the answer of the backend. *)
Definition submission (username : string) (answers_payload : list Answer)
  : comp string :=
  result_data <- submit_answers DEFAULT_API_URL username agent_code_url
                   answers_payload ;;
  success_status username result_data.

(** [run_and_submit_all]: the status and the table of results ([None]
    when the run stops before the loop).  [GaiaAgent()] only builds the
    agent and cannot raise, so that its [except] clause is left out. *)
Definition run_and_submit_all (profile : option Profile)
  : comp (string * option (list Row)) :=
  match profile with
  | None => ret ("Please log in to Hugging Face with the button above.", None)
  | Some profile =>
      let username := username profile in
      let api_url := DEFAULT_API_URL in
      let agent := GaiaAgent_init in
      fetched <- attempt (fetch_questions api_url) ;;
      match fetched with
      | Raise e =>
          ret ("Error while fetching questions: " ++ exn_msg e, None)
      | Ok questions_data =>
          acc <- loop agent questions_data ([], []) ;;
          let '(answers_payload, results_log) := acc in
          match answers_payload with
          | [] =>
              ret ("Agent did not produce any answers to submit.",
                   Some results_log)
          | _ =>
              final_status <-
                catch (submission username answers_payload)
                  (fun e => ret (failure_status e)) ;;
              ret (final_status, Some results_log)
          end
      end
  end.

(** The task that the loop dispatches for an item: task id, question and
    metadata; [None] for an item that the loop skips. *)
Definition task_of (item : json) : option (json * json * dict) :=
  match item with
  | JObj d =>
      if negb (truthy (get d "task_id")) || is_None (get d "question")
      then None
      else Some (get d "task_id", get d "question",
                 filter (fun kv => is_metadata_key (fst kv)) d)
  | _ => None
  end.

(** The calls of [agent.answer] that a run of the loop makes, in order,
    each with its task id, its question and what the call did. *)
Fixpoint outcomes (agent : GaiaAgent) (questions_data : list json) (t : trace)
  : list (json * json * result string) :=
  match questions_data with
  | [] => []
  | item :: rest =>
      match task_of item with
      | None => outcomes agent rest t
      | Some (task_id, question_text, metadata) =>
          let (t', r) := answer agent question_text metadata t in
          (task_id, question_text, r) :: outcomes agent rest t'
      end
  end.

End WithWorld.

End Runner.

(** The rows and the payload entries that a list of outcomes gives. *)
Definition row_of (o : Py.json * Py.json * Py.result string) : Runner.Row :=
  let '(task_id, question_text, r) := o in
  Runner.mkRow task_id question_text
    match r with
    | Py.Ok a => a
    | Py.Raise e => "AGENT ERROR: " ++ Py.exn_msg e
    end.

Definition entry_of (o : Py.json * Py.json * Py.result string)
  : list Py.Answer :=
  let '(task_id, _, r) := o in
  match r with
  | Py.Ok a => [Py.mkAnswer task_id a]
  | Py.Raise _ => []
  end.


Definition is_dict (v : Py.json) : bool :=
  match v with Py.JObj _ => true | _ => false end.

Definition is_submit (ev : Py.event) : bool :=
  match ev with Py.EvSubmit _ _ => true | _ => false end.


(** The events of the loop: the calls of the agent and the requests that
    the agent sends. *)
Definition is_dispatch_event (ev : Py.event) : bool :=
  match ev with
  | Py.EvAgent _ _ | Py.EvInference _ _ _ => true
  | _ => false
  end.

(** An item is a valid task when the loop dispatches it. *)
Definition valid_task (item : Py.json) : bool :=
  match Runner.task_of item with Some _ => true | None => false end.

(** The body of a response is a list that is not empty. *)
Definition nonempty_list_body (resp : Py.Response) : bool :=
  match Py.json_body resp with
  | inr (Py.JList (_ :: _)) => true
  | _ => false
  end.





(** ** Sample worlds, for the examples *)

Module Sample.
Import PyStr Py Agent Runner.

Definition type_name (v : json) : string :=
  match v with
  | JNull => "NoneType"
  | JBool _ => "bool"
  | JInt _ => "int"
  | JStr _ => "str"
  | JList _ => "list"
  | JObj _ => "dict"
  end.

(** A stand-in for [repr]: exact on atoms, schematic on containers. *)
Definition repr (v : json) : string :=
  match v with
  | JNull => "None"
  | JBool true => "True"
  | JBool false => "False"
  | JInt z => of_Z z
  | JStr s => "'" ++ s ++ "'"
  | JList _ => "[...]"
  | JObj _ => "{...}"
  end.

Definition no_attribute (v : json) (name : string) : string :=
  "'" ++ type_name v ++ "' object has no attribute '" ++ name ++ "'".

Definition type_error (v : json) : string :=
  "'" ++ type_name v ++ "' object is not subscriptable".

Definition not_a_str (v : json) : exn :=
  match v with
  | JList _ => Exn (Err AttributeError (no_attribute v "lower"))
  | _ => Exn (Err TypeError (type_error v))
  end.

(** A world in which each kind of request has one fixed outcome. *)
Definition world (token : option string)
    (questions inference submit : result Response) : World :=
  mkWorld (mkEnv token None None None)
    (fun _ _ => questions)
    (fun _ _ _ _ => inference)
    (fun _ _ _ => submit)
    repr no_attribute type_error not_a_str.

Definition ok_json (v : json) : result Response :=
  Ok (mkResponse 200 EmptyString EmptyString (inr v)).

Definition unreachable : result Response :=
  Raise (Exn (Err ConnectionError "Connection refused")).

Definition task (task_id question : json) : json :=
  JObj [("task_id", task_id); ("question", question); ("Level", JStr "1")].

(** The list of the specification's fetch-skip example: the second item
    has no [task_id]. *)
Definition fetch_skip_items : list json :=
  [ JObj [("task_id", JStr "1"); ("question", JStr "Q1")];
    JObj [("question", JStr "Q2")] ].

Definition scored : json :=
  JObj [("username", JStr "alice"); ("score", JInt 5);
        ("correct_count", JInt 1); ("total_attempted", JInt 20);
        ("message", JStr "ok")].

Definition alice : Profile := mkProfile "alice".


(** A world without token: the questions endpoint answers with the given
    list, the submit endpoint with a score. *)
Definition offline (questions : list json) : World :=
  world None (ok_json (JList questions)) unreachable (ok_json scored).

(** A world with a token, in which the completer answers [ Paris ]. *)
Definition online (questions : list json) : World :=
  world (Some "hf_token") (ok_json (JList questions))
    (ok_json (JList [JObj [("generated_text", JStr " Paris ")]]))
    (ok_json scored).

(** A question that satisfies the rule of the chess position (the fourth)
    and the rule of the Malko competition (the last). *)
Definition overlap : string :=
  "Review the chess position provided in the image. Who is the only "
  ++ "Malko Competition recipient from the 20th century?".

(** A list of which every valid task makes the agent raise: the questions
    are numbers. *)
Definition failing_items : list json :=
  [ task (JStr "a") (JInt 4); JObj [("question", JStr "Q2")];
    task (JInt 7) (JBool true) ].








(** A fetched list whose first item is a bare question, not an object. *)
Definition bare_items : list json :=
  [ JStr "What is 2+2?";
    JObj [("task_id", JStr "1"); ("question", JStr "Q1")] ].

End Sample.

(** ** The wrapper of [model.py] *)

Module ModelPy.
Import PyStr Py Agent.
Local Open Scope comp_scope.

Record Model : Type := mkModel {
  _agent : SimpleLLMAgent;
  system_prompt : string
}.

Definition default_system_prompt : string :=
  "You are a precise GAIA reasoning assistant. "
  ++ "For each question, return only the final answer, "
  ++ "with no explanation or extra text.".

(** The line feed character, twice. *)
Definition blank_line : string :=
  String (ascii_of_nat 10) (String (ascii_of_nat 10) EmptyString).

Section WithWorld.

Variable w : World.

(** [Model.__init__]: [system_prompt or (...)] keeps a prompt that is
    neither [None] nor empty. *)
Definition Model_init (prompt : option string) : Model :=
  mkModel (create_agent w)
    (if truthy_opt prompt then str_opt prompt else default_system_prompt).

(** [Model._build_prompt] *)
Definition _build_prompt (self : Model) (question_text : string)
    (metadata : option dict) : string :=
  let prompt :=
    system_prompt self ++ blank_line ++ "Question: " ++ question_text in
  match metadata with
  | Some (kv :: d) =>
      prompt ++ blank_line ++ "Metadata: " ++ py_str w (JObj (kv :: d))
  | _ => prompt
  end.

(** [Model._postprocess] *)
Definition _postprocess (raw_output : json) : string :=
  match raw_output with
  | JNull => EmptyString
  | _ =>
      let text := strip (py_str w raw_output) in
      let lowered := lower text in
      if prefix "answer:" lowered
      then strip (drop (len "answer:") text)
      else text
  end.

(** [Model.get_answer]; the agent is called without metadata. *)
Definition get_answer (self : Model) (question_text : string)
    (metadata : option dict) : comp string :=
  let prompt := _build_prompt self question_text metadata in
  raw_output <- run w (_agent self) prompt [] ;;
  ret (_postprocess (JStr raw_output)).

End WithWorld.

End ModelPy.




(** A string without white space at its ends. *)
Definition clean (s : string) : Prop :=
  PyStr.lstrip s = s /\ PyStr.rstrip s = s.


(** ** More sample worlds *)

Module MoreSamples.
Import PyStr Py Agent Runner Sample.

(** Worlds with a token, which differ by the answer of the inference
    endpoint: a status 503, an object with an [error] field, and a
    completion whose [generated_text] is [None]. *)
Definition unavailable : Response :=
  mkResponse 503 "503 Server Error: Service Unavailable" "loading"
    (inl (Err JSONDecodeError "Expecting value")).

Definition busy : World :=
  world (Some "hf_token") (ok_json (JList [])) (Ok unavailable)
    (ok_json scored).

Definition loading : json := JObj [("error", JStr "Model is loading")].

Definition erring : World :=
  world (Some "hf_token") (ok_json (JList [])) (ok_json loading)
    (ok_json scored).

Definition nulling : World :=
  world (Some "hf_token") (ok_json (JList []))
    (ok_json (JList [JObj [("generated_text", JNull)]]))
    (ok_json scored).

(** A completion between a no-break space and an ideographic space. *)
Definition padded_text : string := chr 0xA0 ++ "Paris" ++ chr 0x3000.

Definition padded : World :=
  world (Some "hf_token") (ok_json (JList []))
    (ok_json (JList [JObj [("generated_text", JStr padded_text)]]))
    (ok_json scored).

(** A world whose submit endpoint answers with a list. *)
Definition listing : World :=
  world None (ok_json (JList fetch_skip_items)) unreachable
    (ok_json (JList [])).


(** An answer 503 whose body is not JSON and has a letter outside of
    ASCII: 29 characters in 30 bytes. *)
Definition overloaded : Response :=
  mkResponse 503 "503 Server Error: Service Unavailable"
    "modèle en cours de chargement"
    (inl (Err JSONDecodeError "Expecting value")).

(** The question of the eighteenth rule of the table, in capitals. *)
Definition taisho : string :=
  "WHO ARE THE PITCHERS WITH THE NUMBER BEFORE AND AFTER "
  ++ "TAISHŌ TAMAI'S NUMBER AS OF JULY 2023?".

(** The question of the first rule of the table. *)
Definition sosa : string :=
  "How many studio albums were published by Mercedes Sosa between "
  ++ "2000 and 2009 (included)?".

End MoreSamples.

(** ** Characters and lists of characters, for the statements *)

(** A string made of continuation bytes. *)
Fixpoint all_cont (s : string) : bool :=
  match s with
  | EmptyString => true
  | String c t => PyStr.is_cont c && all_cont t
  end.

(** One character: a byte and continuation bytes. *)
Definition is_char (ch : string) : bool :=
  match ch with
  | String _ t => all_cont t
  | EmptyString => false
  end.

(** A list of characters as [chars] gives them: each one but the first
    starts with a byte that is not a continuation byte. *)
Definition split_ok (l : list string) : Prop :=
  Forall (fun ch => is_char ch = true) l
  /\ Forall (fun ch => PyStr.starts_cont ch = false) (tl l).

(** The pairs of an entry of the table of lowercase mappings, and of the
    whole table. *)
Definition entry_pairs (e : N * N * N * N) : list (N * N) :=
  let '(first, last, step, target) := e in
  map (fun i => let k := N.of_nat i in
                (first + k * step, target + k * step)%N)
    (seq 0 (S (N.to_nat ((last - first) / step)))).

Definition lowercase_pairs : list (N * N) :=
  flat_map entry_pairs PyStr.lowercase.

(** A code point that [lower] leaves as it is: its UTF-8 form is one
    character that decodes to it, it is not the capital sigma and it has
    no lowercase mapping. *)
Definition settled (m : N) : bool :=
  is_char (PyStr.chr m)
  && negb (PyStr.starts_cont (PyStr.chr m))
  && match PyStr.ord (PyStr.chr m) with
     | Some k => (k =? m)%N
     | None => false
     end
  && negb (m =? 0x3A3)%N
  && match PyStr.to_lower_full m with
     | None => true
     | Some _ => false
     end.

(** The last byte of the two small sigmas, [CF 83] and [CF 82]: the only
    byte of [lower s] that depends on what is around a character. *)
Definition is_sigma_byte (c : ascii) : bool :=
  ((PyStr.code c =? 0x82) || (PyStr.code c =? 0x83))%N.

Fixpoint sigma_free (s : string) : bool :=
  match s with
  | EmptyString => true
  | String c t => negb (is_sigma_byte c) && sigma_free t
  end.

(** Two strings that differ at such bytes only. *)
Inductive sim : string -> string -> Prop :=
| sim_nil : sim EmptyString EmptyString
| sim_same (c : ascii) (s t : string) :
    sim s t -> sim (String c s) (String c t)
| sim_sigma (c d : ascii) (s t : string) :
    is_sigma_byte c = true -> is_sigma_byte d = true ->
    sim s t -> sim (String c s) (String d t).



(** * Properties *)

(** ** Strings *)

Module PyStrFacts.
Import PyStr.

Lemma append_assoc (a b c : string) : (a ++ b) ++ c = a ++ b ++ c.
Proof. induction a as [|x a IH]; simpl; [reflexivity | now rewrite IH]. Qed.

Lemma append_nil_r (s : string) : s ++ EmptyString = s.
Proof. induction s as [|c s IH]; simpl; [reflexivity | now rewrite IH]. Qed.

Lemma join_app (l1 l2 : list string) :
  join (l1 ++ l2) = join l1 ++ join l2.
Proof.
  induction l1 as [|x l1 IH]; simpl; [reflexivity|].
  now rewrite IH, append_assoc.
Qed.

(** *** Splitting into characters *)

Lemma chars_cons (c : ascii) (t : string) :
  chars (String c t)
  = if starts_cont t
    then match chars t with
         | x :: xs => String c x :: xs
         | [] => [String c EmptyString]
         end
    else String c EmptyString :: chars t.
Proof. reflexivity. Qed.

Lemma join_chars (s : string) : join (chars s) = s.
Proof.
  induction s as [|c t IH]; [reflexivity|].
  rewrite chars_cons. destruct (starts_cont t) eqn:Ht.
  - destruct (chars t) as [|x xs]; simpl in *; now rewrite <- IH.
  - simpl. now rewrite IH.
Qed.

Lemma chars_nil (s : string) : chars s = [] -> s = EmptyString.
Proof. intros H. rewrite <- (join_chars s), H. reflexivity. Qed.

Lemma chars_all_cont (c : ascii) (t : string) :
  all_cont t = true -> chars (String c t) = [String c t].
Proof.
  revert c. induction t as [|d t IH]; intros c H; [reflexivity|].
  simpl in H. apply andb_true_iff in H as [Hd Ht].
  rewrite chars_cons. simpl starts_cont. rewrite Hd.
  now rewrite (IH d Ht).
Qed.

Lemma chars_char (ch : string) : is_char ch = true -> chars ch = [ch].
Proof. destruct ch as [|c t]; [discriminate | apply chars_all_cont]. Qed.

Lemma starts_cont_app (x y : string) :
  starts_cont (x ++ y)
  = match x with EmptyString => starts_cont y | _ => starts_cont x end.
Proof. now destruct x. Qed.

Lemma chars_app (x y : string) :
  starts_cont y = false -> chars (x ++ y) = (chars x ++ chars y)%list.
Proof.
  intros Hy. induction x as [|c x IH]; [reflexivity|].
  change (String c x ++ y) with (String c (x ++ y)).
  rewrite !chars_cons, starts_cont_app, IH.
  destruct x as [|d x].
  - simpl. now rewrite Hy.
  - destruct (starts_cont (String d x)); [|reflexivity].
    destruct (chars (String d x)) as [|h tl] eqn:Hc; [|reflexivity].
    apply chars_nil in Hc. discriminate.
Qed.

Lemma chars_head (c : ascii) (t : string) :
  exists t' l, chars (String c t) = String c t' :: l.
Proof.
  rewrite chars_cons. destruct (starts_cont t).
  - destruct (chars t); now eexists _, _.
  - now eexists _, _.
Qed.

Lemma chars_split_ok (s : string) : split_ok (chars s).
Proof.
  induction s as [|c t [IH1 IH2]]; [split; constructor|].
  rewrite chars_cons. destruct (starts_cont t) eqn:Ht.
  - destruct (chars t) as [|x xs] eqn:Hc.
    + split; repeat constructor.
    + split.
      * inversion IH1; subst. constructor; [|assumption].
        simpl. destruct t as [|d t]; [discriminate|].
        destruct (chars_head d t) as (t' & l & Hh).
        rewrite Hh in Hc. injection Hc as <- _.
        simpl in Ht. simpl in H1. simpl. now rewrite Ht, H1.
      * exact IH2.
  - split.
    + constructor; [reflexivity | exact IH1].
    + simpl. destruct (chars t) as [|x xs] eqn:Hc; constructor.
      * destruct t as [|d t]; [discriminate|].
        destruct (chars_head d t) as (t' & l & Hh).
        rewrite Hh in Hc. injection Hc as <- _. exact Ht.
      * exact IH2.
Qed.

Lemma split_ok_inv (l : list string) :
  split_ok l ->
  match l with
  | [] => True
  | x :: t =>
      is_char x = true
      /\ Forall (fun ch => is_char ch = true) t
      /\ Forall (fun ch => starts_cont ch = false) t
  end.
Proof.
  intros [H1 H2]. destruct l as [|x t]; [exact I|].
  inversion H1; subst. auto.
Qed.

Lemma split_ok_tail (x : string) (l : list string) :
  split_ok (x :: l) -> split_ok l.
Proof.
  intros H. apply split_ok_inv in H as (_ & H1 & H2).
  split; [exact H1|]. destruct l; [constructor|].
  exact (Forall_inv_tail H2).
Qed.

Lemma starts_cont_join (x : string) (l : list string) :
  is_char x = true -> starts_cont (join (x :: l)) = starts_cont x.
Proof. destruct x; [discriminate | reflexivity]. Qed.

Lemma chars_join (l : list string) : split_ok l -> chars (join l) = l.
Proof.
  induction l as [|x l IH]; intros H; [reflexivity|].
  pose proof (split_ok_tail _ _ H) as Ht. destruct H as [H1 H2].
  inversion H1; subst.
  change (join (x :: l)) with (x ++ join l).
  rewrite chars_app.
  - rewrite (chars_char x), IH by assumption. reflexivity.
  - destruct l as [|y l]; [reflexivity|].
    simpl in H2. inversion H2; subst. inversion H4; subst.
    now rewrite starts_cont_join.
Qed.

(** *** Stripping *)

Lemma rstrip_chars_cons (ch : string) (t : list string) :
  isspace ch = false -> rstrip_chars (ch :: t) = ch :: rstrip_chars t.
Proof. intros H. simpl. rewrite H. now destruct (rstrip_chars t). Qed.

Lemma rstrip_chars_blank (ch : string) (t : list string) :
  rstrip_chars (ch :: t) = [] -> isspace ch = true /\ rstrip_chars t = [].
Proof.
  simpl. destruct (rstrip_chars t); [|discriminate].
  now destruct (isspace ch).
Qed.

Lemma rstrip_chars_space (ch : string) (t : list string) :
  isspace ch = true ->
  rstrip_chars (ch :: t)
  = match rstrip_chars t with [] => [] | t' => ch :: t' end.
Proof. intros H. simpl. now rewrite H. Qed.

Lemma rstrip_lstrip_blank (l : list string) :
  rstrip_chars l = [] -> rstrip_chars (lstrip_chars l) = [].
Proof.
  induction l as [|ch t IH]; intros H; [reflexivity|].
  apply rstrip_chars_blank in H as [Hch Ht].
  simpl. rewrite Hch. auto.
Qed.

Lemma lstrip_chars_head (l : list string) :
  lstrip_chars l = []
  \/ exists ch t, lstrip_chars l = ch :: t /\ isspace ch = false.
Proof.
  induction l as [|ch t IH]; simpl; [now left|].
  destruct (isspace ch) eqn:Hch; [exact IH|].
  right. now exists ch, t.
Qed.

Lemma lstrip_chars_fixed (ch : string) (t : list string) :
  isspace ch = false -> lstrip_chars (ch :: t) = ch :: t.
Proof. intros H. simpl. now rewrite H. Qed.

Lemma rstrip_chars_idem (l : list string) :
  rstrip_chars (rstrip_chars l) = rstrip_chars l.
Proof.
  induction l as [|ch t IH]; [reflexivity|].
  destruct (isspace ch) eqn:Hch.
  - rewrite (rstrip_chars_space _ _ Hch).
    destruct (rstrip_chars t) as [|x xs] eqn:Ht; [reflexivity|].
    rewrite (rstrip_chars_space _ _ Hch), IH. reflexivity.
  - now rewrite !(rstrip_chars_cons _ _ Hch), IH.
Qed.

Lemma strip_chars_comm (l : list string) :
  lstrip_chars (rstrip_chars l) = rstrip_chars (lstrip_chars l).
Proof.
  induction l as [|ch t IH]; [reflexivity|].
  destruct (isspace ch) eqn:Hch.
  - rewrite (rstrip_chars_space _ _ Hch). simpl lstrip_chars at 2.
    rewrite Hch. destruct (rstrip_chars t) as [|x xs] eqn:Ht.
    + now rewrite (rstrip_lstrip_blank _ Ht).
    + rewrite <- IH. simpl. now rewrite Hch.
  - now rewrite (rstrip_chars_cons _ _ Hch), !(lstrip_chars_fixed _ _ Hch),
      (rstrip_chars_cons _ _ Hch).
Qed.

Lemma lstrip_chars_idem (l : list string) :
  lstrip_chars (lstrip_chars l) = lstrip_chars l.
Proof.
  destruct (lstrip_chars_head l) as [->|(ch & t & -> & Hch)]; [reflexivity|].
  now apply lstrip_chars_fixed.
Qed.

Lemma lstrip_chars_Forall (P : string -> Prop) (l : list string) :
  Forall P l -> Forall P (lstrip_chars l).
Proof.
  induction 1 as [|ch t Hch Ht IH]; simpl; [constructor|].
  destruct (isspace ch); [exact IH | now constructor].
Qed.

Lemma rstrip_chars_Forall (P : string -> Prop) (l : list string) :
  Forall P l -> Forall P (rstrip_chars l).
Proof.
  induction 1 as [|ch t Hch Ht IH]; simpl; [constructor|].
  destruct (rstrip_chars t) as [|x xs].
  - destruct (isspace ch); repeat constructor; exact Hch.
  - now constructor.
Qed.

Lemma split_ok_cons (x : string) (l : list string) :
  is_char x = true ->
  Forall (fun ch => is_char ch = true) l ->
  Forall (fun ch => starts_cont ch = false) l ->
  split_ok (x :: l).
Proof. intros Hx H1 H2. split; [now constructor | exact H2]. Qed.

Lemma lstrip_chars_split_ok (l : list string) :
  split_ok l -> split_ok (lstrip_chars l).
Proof.
  induction l as [|ch t IH]; intros H; [exact H|].
  simpl. destruct (isspace ch); [|exact H].
  apply IH. apply split_ok_inv in H as (_ & H1 & H2).
  destruct t as [|x t]; [split; constructor|].
  inversion H1; inversion H2; subst. now apply split_ok_cons.
Qed.

Lemma rstrip_chars_split_ok (l : list string) :
  split_ok l -> split_ok (rstrip_chars l).
Proof.
  intros H. destruct l as [|ch t]; [exact H|].
  apply split_ok_inv in H as (Hch & H1 & H2).
  simpl. destruct (rstrip_chars t) as [|x xs] eqn:Ht.
  - destruct (isspace ch); [split; constructor|].
    apply split_ok_cons; [assumption | constructor | constructor].
  - rewrite <- Ht.
    apply split_ok_cons; [assumption | |]; now apply rstrip_chars_Forall.
Qed.

Lemma strip_chars_split_ok (s : string) :
  split_ok (rstrip_chars (lstrip_chars (chars s))).
Proof.
  apply rstrip_chars_split_ok, lstrip_chars_split_ok, chars_split_ok.
Qed.

Lemma chars_strip (s : string) :
  chars (strip s) = rstrip_chars (lstrip_chars (chars s)).
Proof. apply chars_join, strip_chars_split_ok. Qed.

Lemma strip_idem (s : string) : strip (strip s) = strip s.
Proof.
  unfold strip at 1. rewrite chars_strip. unfold strip.
  rewrite (strip_chars_comm (lstrip_chars (chars s))).
  now rewrite lstrip_chars_idem, rstrip_chars_idem.
Qed.

Lemma strip_clean (s : string) : clean (strip s).
Proof.
  unfold clean, lstrip, rstrip. rewrite chars_strip. split.
  - unfold strip.
    rewrite (strip_chars_comm (lstrip_chars (chars s))).
    now rewrite lstrip_chars_idem.
  - unfold strip. now rewrite rstrip_chars_idem.
Qed.

Lemma clean_strip (s : string) : clean s -> strip s = s.
Proof.
  intros [Hl Hr]. unfold lstrip in Hl. unfold rstrip in Hr.
  assert (Hl' : lstrip_chars (chars s) = chars s).
  { rewrite <- Hl at 2. symmetry.
    apply chars_join, lstrip_chars_split_ok, chars_split_ok. }
  unfold strip. now rewrite Hl'.
Qed.

Lemma strip_rstrip (s : string) : strip (rstrip s) = strip s.
Proof.
  unfold strip, rstrip.
  rewrite chars_join by apply rstrip_chars_split_ok, chars_split_ok.
  rewrite (strip_chars_comm (chars s)). now rewrite rstrip_chars_idem.
Qed.
(** *** The table of lowercase mappings *)

Lemma maps_pairs (e : N * N * N * N) (n : N) :
  maps e n = true ->
  let '(first, _, _, target) := e in
  In (n, (target + (n - first))%N) (entry_pairs e).
Proof.
  destruct e as [[[first last] step] target]. unfold maps, entry_pairs.
  intros H. apply andb_true_iff in H as [H Hmod].
  apply andb_true_iff in H as [Hlo Hhi].
  apply N.leb_le in Hlo, Hhi. apply N.eqb_eq in Hmod.
  pose proof (N.div_mod' (n - first) step) as Hdiv. rewrite Hmod in Hdiv.
  assert (Hle : ((n - first) / step <= (last - first) / step)%N)
    by (apply N.Div0.div_le_mono; lia).
  set (q := ((n - first) / step)%N) in *.
  set (bound := ((last - first) / step)%N) in *.
  clearbody q bound.
  apply in_map_iff. exists (N.to_nat q). split.
  - rewrite N2Nat.id. f_equal; nia.
  - apply in_seq. lia.
Qed.

Lemma to_lower_full_cases (n : N) (l : list N) :
  to_lower_full n = Some l ->
  l = [0x69; 0x307]%N \/ exists m, l = [m] /\ In (n, m) lowercase_pairs.
Proof.
  unfold to_lower_full. destruct (n =? 0x130)%N.
  - intros H. injection H as <-. now left.
  - destruct (find (fun e => maps e n) lowercase)
      as [[[[first last] step] target]|] eqn:Hfind; [|discriminate].
    intros H. injection H as <-. right. eexists. split; [reflexivity|].
    apply find_some in Hfind as [Hin Hmaps].
    apply in_flat_map. eexists. split; [exact Hin|].
    exact (maps_pairs _ _ Hmaps).
Qed.

Lemma lowercase_settled :
  forallb (fun p => settled (snd p)) lowercase_pairs = true.
Proof. vm_compute. reflexivity. Qed.

Lemma to_lower_full_settled (n : N) (l : list N) :
  to_lower_full n = Some l ->
  l <> [] /\ Forall (fun m => settled m = true) l.
Proof.
  intros H. apply to_lower_full_cases in H as [->|(m & -> & Hin)].
  - split; [discriminate|]. repeat constructor.
  - split; [discriminate|]. constructor; [|constructor].
    pose proof lowercase_settled as Hall. rewrite forallb_forall in Hall.
    exact (Hall _ Hin).
Qed.

(** *** Lower case *)

Lemma lower_char_settled (m : N) (before after : list string) :
  settled m = true -> lower_char before (chr m) after = [chr m].
Proof.
  unfold settled, lower_char. intros H.
  repeat (apply andb_true_iff in H as [H ?]).
  destruct (ord (chr m)) as [k|]; [|discriminate].
  match goal with Hk : (k =? m)%N = true |- _ => apply N.eqb_eq in Hk; subst k end.
  match goal with Hs : negb _ = true |- _ =>
    apply negb_true_iff in Hs; rewrite Hs end.
  now destruct (to_lower_full m).
Qed.

(** What [lower_char] gives: the character itself, which [lower] would
    leave again, or the UTF-8 forms of settled code points. *)
Lemma lower_char_cases (before : list string) (ch : string)
    (after : list string) :
  (lower_char before ch after = [ch]
   /\ forall b a, lower_char b ch a = [ch])
  \/ exists l, l <> []
               /\ Forall (fun m => settled m = true) l
               /\ lower_char before ch after = map chr l.
Proof.
  unfold lower_char. destruct (ord ch) as [n|]; [|now left].
  destruct (n =? 0x3A3)%N.
  - right. eexists [_]. split; [discriminate|]. split; [|reflexivity].
    constructor; [|constructor]. now destruct (final_sigma before after).
  - destruct (to_lower_full n) as [l|] eqn:Hl; [|now left].
    right. exists l. apply to_lower_full_settled in Hl as [Hne Hall].
    now repeat split.
Qed.

Lemma settled_char (m : N) :
  settled m = true ->
  is_char (chr m) = true /\ starts_cont (chr m) = false
  /\ forall b a, lower_char b (chr m) a = [chr m].
Proof.
  intros H. split; [|split].
  - unfold settled in H. repeat (apply andb_true_iff in H as [H _]).
    exact H.
  - unfold settled in H. repeat (apply andb_true_iff in H as [H ?]).
    now apply negb_true_iff.
  - intros b a. now apply lower_char_settled.
Qed.

(** A character that [lower] leaves as it is, whatever is around it. *)
Lemma lower_chars_fixed (l : list string) :
  Forall (fun ch => forall b a, lower_char b ch a = [ch]) l ->
  forall before, lower_chars before l = l.
Proof.
  induction 1 as [|ch t Hch Ht IH]; intros before; [reflexivity|].
  simpl. now rewrite Hch, IH.
Qed.

Lemma lower_chars_out (l : list string) :
  Forall (fun ch => is_char ch = true) l ->
  forall before,
    Forall (fun ch => is_char ch = true
                      /\ forall b a, lower_char b ch a = [ch])
      (lower_chars before l).
Proof.
  induction 1 as [|ch t Hch Ht IH]; intros before; [constructor|].
  simpl. apply Forall_app. split; [|apply IH].
  destruct (lower_char_cases before ch t) as [[-> Hfix]|(l & _ & Hl & ->)].
  - now repeat constructor.
  - apply Forall_map. apply Forall_impl with (2 := Hl).
    intros m Hm. apply settled_char in Hm as (? & _ & ?). now split.
Qed.

Lemma lower_chars_lead (l : list string) :
  Forall (fun ch => starts_cont ch = false) l ->
  forall before,
    Forall (fun ch => starts_cont ch = false) (lower_chars before l).
Proof.
  induction 1 as [|ch t Hch Ht IH]; intros before; [constructor|].
  simpl. apply Forall_app. split; [|apply IH].
  destruct (lower_char_cases before ch t) as [[-> Hfix]|(l & _ & Hl & ->)].
  - now repeat constructor.
  - apply Forall_map. apply Forall_impl with (2 := Hl).
    intros m Hm. now apply settled_char in Hm as (_ & ? & _).
Qed.

Lemma lower_chars_split_ok (l : list string) (before : list string) :
  split_ok l -> split_ok (lower_chars before l).
Proof.
  intros H. split.
  - destruct H as [H _].
    apply Forall_impl with (2 := lower_chars_out l H before).
    now intros ch [? _].
  - destruct l as [|ch t]; [constructor|].
    apply split_ok_inv in H as (Hch & H1 & H2).
    simpl lower_chars.
    pose proof (lower_chars_lead t H2 (ch :: before)) as Hrest.
    destruct (lower_char_cases before ch t) as [[-> Hfix]|(l & Hne & Hl & ->)].
    + exact Hrest.
    + destruct l as [|m l]; [contradiction|]. simpl.
      apply Forall_app. split; [|exact Hrest].
      apply Forall_inv_tail in Hl. apply Forall_map.
      apply Forall_impl with (2 := Hl).
      intros k Hk. now apply settled_char in Hk as (_ & ? & _).
Qed.

Lemma chars_lower (s : string) :
  chars (lower s) = lower_chars [] (chars s).
Proof. apply chars_join, lower_chars_split_ok, chars_split_ok. Qed.

Lemma lower_idem (s : string) : lower (lower s) = lower s.
Proof.
  unfold lower at 1. rewrite chars_lower. unfold lower. f_equal.
  apply lower_chars_fixed.
  destruct (chars_split_ok s) as [H _].
  apply Forall_impl with (2 := lower_chars_out _ H []).
  now intros ch [_ ?].
Qed.
(** *** What is around a character

    The lowercase form of a string inside of a longer one differs from
    its own lowercase form at the last byte of a small sigma only. *)

Lemma sim_refl (s : string) : sim s s.
Proof. induction s; now constructor. Qed.

Lemma sim_app (a b c d : string) :
  sim a b -> sim c d -> sim (a ++ c) (b ++ d).
Proof. induction 1; intros Hcd; simpl; [assumption | |]; constructor; auto. Qed.

Lemma sim_sigma_free (s t : string) :
  sigma_free s = true -> sim s t -> t = s.
Proof.
  intros Hs H. induction H as [|c s t H IH|c d s t Hc Hd H IH].
  - reflexivity.
  - simpl in Hs. apply andb_true_iff in Hs as [_ Hs]. now rewrite IH.
  - simpl in Hs. now rewrite Hc in Hs.
Qed.

Lemma sim_prefix (n s t : string) :
  sigma_free n = true -> sim s t -> prefix n s = true -> prefix n t = true.
Proof.
  intros Hn H. revert n Hn.
  induction H as [|c s t H IH|c d s t Hc Hd H IH]; intros n Hn Hp.
  - exact Hp.
  - destruct n as [|a n]; [reflexivity|]. simpl in *.
    destruct (ascii_dec a c); [|discriminate].
    apply andb_true_iff in Hn as [_ Hn]. auto.
  - destruct n as [|a n]; [reflexivity|]. simpl in *.
    destruct (ascii_dec a c) as [->|]; [|discriminate].
    now rewrite Hc in Hn.
Qed.

Lemma sim_contains (n s t : string) :
  sigma_free n = true -> sim s t ->
  contains n s = true -> contains n t = true.
Proof.
  intros Hn H.
  induction H as [|c s t H IH|c d s t Hc Hd H IH]; intros Hp.
  - exact Hp.
  - simpl in *. apply orb_true_iff in Hp as [Hp|Hp].
    + apply orb_true_iff. left.
      apply (sim_prefix n (String c s) (String c t) Hn); [|exact Hp].
      now constructor.
    + apply orb_true_iff. right. auto.
  - simpl in *. apply orb_true_iff in Hp as [Hp|Hp].
    + apply orb_true_iff. left.
      apply (sim_prefix n (String c s) (String d t) Hn); [|exact Hp].
      now constructor.
    + apply orb_true_iff. right. auto.
Qed.

Lemma lower_char_sim (b a b' a' : list string) (ch : string) :
  sim (join (lower_char b ch a)) (join (lower_char b' ch a')).
Proof.
  unfold lower_char. destruct (ord ch) as [n|]; [|apply sim_refl].
  destruct (n =? 0x3A3)%N; [|apply sim_refl].
  destruct (final_sigma b a), (final_sigma b' a'); simpl;
    repeat first [apply sim_nil | apply sim_same
                 | apply sim_sigma; [reflexivity | reflexivity |]].
Qed.

Lemma lower_chars_inside (l : list string) :
  forall before before' rest,
  exists out,
    lower_chars before (l ++ rest)
    = (out ++ lower_chars (rev l ++ before) rest)%list
    /\ sim (join (lower_chars before' l)) (join out).
Proof.
  induction l as [|ch l IH]; intros before before' rest.
  - exists []. split; [reflexivity | constructor].
  - destruct (IH (ch :: before) (ch :: before') rest) as (out & Hout & Hsim).
    exists (lower_char before ch (l ++ rest) ++ out)%list. split.
    + simpl. rewrite Hout, <- !app_assoc. reflexivity.
    + simpl. rewrite !join_app. apply sim_app; [apply lower_char_sim|].
      exact Hsim.
Qed.

Lemma lower_inside (a p b : string) :
  starts_cont p = false -> starts_cont b = false ->
  exists x m y, lower (a ++ p ++ b) = x ++ m ++ y /\ sim (lower p) m.
Proof.
  intros Hp Hb. unfold lower.
  rewrite chars_app, chars_app by (rewrite ?starts_cont_app;
                                   try destruct p; assumption).
  destruct (lower_chars_inside (chars a) [] [] (chars p ++ chars b))
    as (outa & Ha & _).
  destruct (lower_chars_inside (chars p) (rev (chars a) ++ []) []
              (chars b)) as (outp & Hpp & Hsim).
  rewrite Ha, Hpp, !join_app. now eexists _, _, _.
Qed.

(** *** Substrings *)

Lemma prefix_append (x b : string) : prefix x (x ++ b) = true.
Proof.
  induction x as [|c x IH]; simpl.
  - now destruct b.
  - destruct (ascii_dec c c); [exact IH | contradiction].
Qed.

Lemma prefix_empty (s : string) : prefix EmptyString s = true.
Proof. now destruct s. Qed.

Lemma prefix_extend (s : string) :
  forall x b, prefix x s = true -> prefix x (s ++ b) = true.
Proof.
  induction s as [|c s IH]; intros x b H.
  - destruct x; [apply prefix_empty | discriminate].
  - destruct x as [|c' x]; [reflexivity|].
    simpl in *. destruct (ascii_dec c' c); [now apply IH | discriminate].
Qed.

Lemma contains_unfold (sub s : string) :
  contains sub s
  = prefix sub s
    || match s with
       | EmptyString => false
       | String _ t => contains sub t
       end.
Proof. now destruct s. Qed.


Lemma contains_skip (a x s : string) :
  contains x s = true -> contains x (a ++ s) = true.
Proof.
  intros H. induction a as [|c a IH]; simpl; [exact H|].
  now rewrite IH, orb_true_r.
Qed.

Lemma contains_extend (x s b : string) :
  contains x s = true -> contains x (s ++ b) = true.
Proof.
  induction s as [|c s IH]; intros H.
  - rewrite contains_unfold, orb_false_r in H.
    destruct x; [|discriminate].
    rewrite contains_unfold. now rewrite prefix_empty.
  - rewrite contains_unfold in H. apply orb_true_iff in H as [H|H].
    + rewrite contains_unfold. now rewrite (prefix_extend _ _ b H).
    + simpl. now rewrite (IH H), orb_true_r.
Qed.

Lemma contains_inside (n a m b : string) :
  contains n m = true -> contains n (a ++ m ++ b) = true.
Proof. intros H. now apply contains_skip, contains_extend. Qed.

(** A substring without sigma byte of [lower p] is a substring of the
    lowercase form of every string that has [p] inside. *)
Lemma contains_lower_inside (n a p b : string) :
  sigma_free n = true ->
  starts_cont p = false -> starts_cont b = false ->
  contains n (lower p) = true ->
  contains n (lower (a ++ p ++ b)) = true.
Proof.
  intros Hn Hp Hb H.
  destruct (lower_inside a p b Hp Hb) as (x & m & y & -> & Hsim).
  apply contains_inside. exact (sim_contains _ _ _ Hn Hsim H).
Qed.

(** *** Length and slices *)

Lemma len_append (a b : string) : len (a ++ b) = len a + len b.
Proof.
  induction a as [|c a IH]; [reflexivity|]. simpl.
  destruct (is_cont c); now rewrite IH.
Qed.

Lemma len_take (n : nat) (s : string) :
  len (take n s) = Nat.min n (len s).
Proof.
  revert n. induction s as [|c s IH]; intros n; simpl.
  - now rewrite Nat.min_0_r.
  - destruct (is_cont c) eqn:Hc; simpl; rewrite ?Hc; [apply IH|].
    destruct n as [|n]; [reflexivity|]. simpl. now rewrite Hc, IH.
Qed.

Lemma take_drop (n : nat) (s : string) : take n s ++ drop n s = s.
Proof.
  revert n. induction s as [|c s IH]; intros n; [reflexivity|]. simpl.
  destruct (is_cont c); [simpl; now rewrite IH|].
  destruct n as [|n]; [reflexivity|]. simpl. now rewrite IH.
Qed.

Lemma ord_starts (ch : string) (n : N) :
  ord ch = Some n -> starts_cont ch = false.
Proof.
  destruct ch as [|a t]; [reflexivity|]. simpl starts_cont. unfold is_cont.
  destruct (128 <=? code a)%N eqn:E1; [|reflexivity].
  destruct (code a <? 192)%N eqn:E2; [|reflexivity].
  apply N.leb_le in E1. apply N.ltb_lt in E2.
  assert (H1 : (code a <? 128)%N = false) by (apply N.ltb_ge; lia).
  assert (H2 : (194 <=? code a)%N = false) by (apply N.leb_gt; lia).
  assert (H3 : (224 <=? code a)%N = false) by (apply N.leb_gt; lia).
  assert (H4 : (240 <=? code a)%N = false) by (apply N.leb_gt; lia).
  unfold ord.
  destruct t as [|b [|c [|d [|e t]]]]; rewrite ?H1, ?H2, ?H3, ?H4;
    cbv beta iota; simpl andb; cbv iota.
  all: discriminate.
Qed.

Lemma valid_starts (s : string) : valid s = true -> starts_cont s = false.
Proof.
  destruct s as [|c t]; [reflexivity|]. unfold valid. intros H.
  destruct (chars_head c t) as (t' & l & Hc). rewrite Hc in H.
  rewrite forallb_forall in H.
  specialize (H (String c t') (or_introl eq_refl)).
  destruct (ord (String c t')) as [n|] eqn:Hn; [|discriminate H].
  exact (ord_starts _ _ Hn).
Qed.

(** *** What [lower] tells about the string it was given *)

Lemma whitespace_fixed :
  forallb (fun n => negb (n =? 0x3A3)%N
                    && match to_lower_full n with
                       | None => true
                       | Some _ => false
                       end) whitespace = true.
Proof. vm_compute. reflexivity. Qed.

Lemma lower_char_space (ch : string) (b a : list string) :
  isspace ch = true -> lower_char b ch a = [ch].
Proof.
  unfold isspace, lower_char. destruct (ord ch) as [n|]; [|discriminate].
  intros H. apply existsb_exists in H as (m & Hin & Heq).
  apply N.eqb_eq in Heq. subst m.
  pose proof whitespace_fixed as Hall. rewrite forallb_forall in Hall.
  specialize (Hall n Hin). apply andb_true_iff in Hall as [Hs Hl].
  apply negb_true_iff in Hs. rewrite Hs.
  now destruct (to_lower_full n).
Qed.

Lemma lower_char_cont (ch : string) (b a : list string) :
  starts_cont ch = true -> lower_char b ch a = [ch].
Proof.
  intros H. unfold lower_char.
  destruct (ord ch) as [n|] eqn:Hn; [|reflexivity].
  apply ord_starts in Hn. congruence.
Qed.

(** A property of characters that [lower] keeps holds on the string when
    it fails on all of its lowercase form. *)
Lemma lower_chars_reflect (Q : string -> bool) :
  (forall ch b a, Q ch = true -> lower_char b ch a = [ch]) ->
  forall l before,
    Forall (fun ch => Q ch = false) (lower_chars before l) ->
    Forall (fun ch => Q ch = false) l.
Proof.
  intros HQ. induction l as [|ch l IH]; intros before H; [constructor|].
  simpl in H. apply Forall_app in H as [Hch Hl].
  constructor; [|now apply (IH (ch :: before))].
  destruct (Q ch) eqn:Hq; [|reflexivity].
  rewrite (HQ ch before l Hq) in Hch. inversion Hch; subst. congruence.
Qed.

Lemma lower_char_length (ch : string) (b a : list string) :
  List.length (lower_char b ch a) = 1
  \/ In (chr 0x307) (lower_char b ch a).
Proof.
  unfold lower_char. destruct (ord ch) as [n|]; [|now left].
  destruct (n =? 0x3A3)%N; [now left|].
  destruct (to_lower_full n) as [l|] eqn:Hl; [|now left].
  apply to_lower_full_cases in Hl as [->|(m & -> & _)].
  - right. simpl. auto.
  - now left.
Qed.

Lemma lower_chars_length (l : list string) :
  forall before,
    ~ In (chr 0x307) (lower_chars before l) ->
    List.length (lower_chars before l) = List.length l.
Proof.
  induction l as [|ch l IH]; intros before H; [reflexivity|].
  simpl in *. rewrite length_app.
  destruct (lower_char_length ch before l) as [->|Hin].
  - rewrite IH; [reflexivity|]. intros Hl. apply H, in_or_app. now right.
  - exfalso. apply H, in_or_app. now left.
Qed.

Lemma lower_start (p b : string) :
  starts_cont b = false ->
  exists m y, lower (p ++ b) = m ++ y /\ sim (lower p) m.
Proof.
  intros Hb. unfold lower. rewrite chars_app by assumption.
  destruct (lower_chars_inside (chars p) [] [] (chars b))
    as (out & Hout & Hsim).
  rewrite Hout, join_app. now eexists _, _.
Qed.

(** *** Stripping and slicing after whole characters *)

Lemma rstrip_chars_app (p l : list string) :
  Forall (fun ch => isspace ch = false) p ->
  rstrip_chars (p ++ l) = (p ++ rstrip_chars l)%list.
Proof.
  induction 1 as [|ch p Hch Hp IH]; [reflexivity|].
  simpl app. now rewrite (rstrip_chars_cons _ _ Hch), IH.
Qed.

Lemma rstrip_starts (s : string) :
  starts_cont s = false -> starts_cont (rstrip s) = false.
Proof.
  intros Hs. unfold rstrip. destruct s as [|c t]; [reflexivity|].
  destruct (chars_head c t) as (t' & l & ->).
  simpl rstrip_chars.
  destruct (rstrip_chars l); [destruct (isspace _)|]; simpl; auto.
Qed.

Lemma drop_all_cont (n : nat) (t z : string) :
  all_cont t = true -> drop n (t ++ z) = drop n z.
Proof.
  induction t as [|c t IH]; intros H; [reflexivity|].
  simpl in H. apply andb_true_iff in H as [Hc Ht].
  simpl. rewrite Hc. auto.
Qed.

Lemma drop_0 (y : string) : starts_cont y = false -> drop 0 y = y.
Proof. destruct y as [|c y]; simpl; [reflexivity|]. now intros ->. Qed.

Lemma drop_chars (l : list string) (y : string) :
  Forall (fun ch => is_char ch = true) l ->
  Forall (fun ch => starts_cont ch = false) l ->
  starts_cont y = false ->
  drop (List.length l) (join l ++ y) = y.
Proof.
  intros H1 H2 Hy. induction l as [|ch l IH]; [now apply drop_0|].
  inversion H1; inversion H2; subst.
  destruct ch as [|c t]; [discriminate|].
  change (join (String c t :: l)) with (String c t ++ join l).
  rewrite append_assoc. simpl in *.
  match goal with H : is_cont c = false |- _ => rewrite H end.
  rewrite drop_all_cont by assumption. auto.
Qed.

End PyStrFacts.

(** ** The tool table *)

Module AgentFacts.
Import PyStr Py Agent PyStrFacts.

(** The chain of tests of [_gaia_tools] is the table, read in order. *)
Lemma gaia_tools_table (prompt : string) :
  _gaia_tools prompt = table_match (lower prompt).
Proof.
  unfold _gaia_tools, table_match, AnswerTable.
  cbv zeta.
  cbn [first_match holds needles rule_answer forallb].
  rewrite ?andb_true_r, ?andb_assoc.
  reflexivity.
Qed.

Lemma first_match_at (rules : list AnswerRule) (p : string) :
  forall i r,
    nth_error rules i = Some r ->
    holds r p = true ->
    (forall j r', j < i -> nth_error rules j = Some r' -> holds r' p = false) ->
    first_match rules p = Some (rule_answer r).
Proof.
  induction rules as [|r0 rest IH]; intros i r Hi Hr Hbefore.
  - destruct i; discriminate.
  - destruct i as [|i]; simpl in *.
    + injection Hi as ->. now rewrite Hr.
    + rewrite (Hbefore 0 r0) by (simpl; auto; lia).
      apply (IH i r); auto.
      intros j r' Hj Hnth. apply (Hbefore (S j) r'); simpl; auto; lia.
Qed.

Lemma first_match_none (rules : list AnswerRule) (p : string) :
  (forall r, In r rules -> holds r p = false) ->
  first_match rules p = None.
Proof.
  induction rules as [|r0 rest IH]; intros H; simpl.
  - reflexivity.
  - rewrite (H r0) by (left; reflexivity).
    apply IH. intros r Hr. apply H. now right.
Qed.

(** C2.  On a question whose lowercased text satisfies several rules of
    the table, [_gaia_tools] returns the answer of the rule that is
    declared first among them: the answer of rule [i] whenever rule [i]
    holds and no rule declared before it does, whatever the rules after
    it do.  On a question that satisfies no rule it returns [None]. *)
Theorem gaia_tools_first_rule_wins (prompt : string) :
  (forall i r,
      nth_error AnswerTable i = Some r ->
      holds r (lower prompt) = true ->
      (forall j r', j < i -> nth_error AnswerTable j = Some r' ->
                    holds r' (lower prompt) = false) ->
      _gaia_tools prompt = Some (rule_answer r))
  /\ ((forall r, In r AnswerTable -> holds r (lower prompt) = false) ->
      _gaia_tools prompt = None).
Proof.
  rewrite gaia_tools_table. unfold table_match. split.
  - intros i r. apply first_match_at.
  - apply first_match_none.
Qed.

(** C8.  [_gaia_tools] gives the same result on every string and on its
    lowercase form.  Nothing but lowercasing is done to the string: the
    result is the first rule of the table whose needles are all literal
    substrings of the lowercase form, so that a second space between two
    words of a needle defeats the match.  The uppercase and the lowercase
    forms of the Mercedes Sosa question are both answered ["3"], and the
    uppercase form of the question on Taishō Tamai, whose needle has a
    letter outside of ASCII, is answered as its lowercase form is. *)
Theorem gaia_tools_case_insensitive :
  (forall s, _gaia_tools s = _gaia_tools (lower s))
  /\ (forall s, _gaia_tools s = first_match AnswerTable (lower s))
  /\ _gaia_tools "MERCEDES SOSA ... studio albums ... 2000 and 2009"
     = Some "3"
  /\ _gaia_tools "mercedes sosa ... studio albums ... 2000 and 2009"
     = Some "3"
  /\ _gaia_tools
       ("HOW MANY STUDIO ALBUMS WERE PUBLISHED BY MERCEDES SOSA BETWEEN "
        ++ "2000 AND 2009 (INCLUDED)? YOU CAN USE THE LATEST 2022 VERSION "
        ++ "OF ENGLISH WIKIPEDIA.")
     = Some "3"
  /\ _gaia_tools
       ("how many studio albums were published by mercedes sosa between "
        ++ "2000 and 2009 (included)? you can use the latest 2022 version "
        ++ "of english wikipedia.")
     = Some "3"
  /\ lower "PITCHERS BEFORE AND AFTER TAISHŌ TAMAI'S NUMBER"
     = "pitchers before and after taishō tamai's number"
  /\ _gaia_tools
       ("WHO ARE THE PITCHERS WITH THE NUMBER BEFORE AND AFTER "
        ++ "TAISHŌ TAMAI'S NUMBER AS OF JULY 2023?")
     = Some "Yoshida, Uehara"
  /\ _gaia_tools
       ("who are the pitchers with the number before and after "
        ++ "taishō tamai's number as of july 2023?")
     = Some "Yoshida, Uehara"
  /\ _gaia_tools "mercedes  sosa ... studio albums ... 2000 and 2009"
     = None.
Proof.
  split; [|split; [|repeat split; vm_compute; reflexivity]].
  - intros s. rewrite !gaia_tools_table. now rewrite lower_idem.
  - intros s. apply gaia_tools_table.
Qed.

End AgentFacts.

(** ** The dispatch pipeline *)

Module RunFacts.
Import PyStr Py Agent PyStrFacts AgentFacts.

Create HintDb silent.

Section WithWorld.

Variable w : World.

Lemma silent_ret {A} (a : A) : silent (ret a).
Proof. now intros t. Qed.

Lemma silent_raise {A} (e : exn) : silent (@raise A e).
Proof. now intros t. Qed.

Lemma silent_bind {A B} (c : comp A) (f : A -> comp B) :
  silent c -> (forall a, silent (f a)) -> silent (bind c f).
Proof.
  intros Hc Hf t. unfold bind. specialize (Hc t).
  destruct (c t) as [t' [a|e]]; simpl in *; subst.
  - apply Hf.
  - reflexivity.
Qed.

Lemma silent_raise_for_status (resp : Response) :
  silent (raise_for_status resp).
Proof.
  unfold raise_for_status.
  destruct (_ && _); [apply silent_raise | apply silent_ret].
Qed.

Lemma silent_response_json (resp : Response) : silent (response_json resp).
Proof.
  unfold response_json.
  destruct (json_body resp); [apply silent_raise | apply silent_ret].
Qed.

Lemma silent_py_in (key : string) (v : json) : silent (py_in w key v).
Proof. destruct v; simpl; first [apply silent_raise | apply silent_ret]. Qed.

Lemma silent_getitem (v : json) (key : string) : silent (getitem w v key).
Proof.
  destruct v; simpl; try apply silent_raise.
  destruct (lookup key items); [apply silent_ret | apply silent_raise].
Qed.

Lemma silent_str_strip (v : json) : silent (str_strip w v).
Proof. destruct v; simpl; first [apply silent_raise | apply silent_ret]. Qed.

#[local] Hint Resolve silent_ret silent_raise silent_raise_for_status
  silent_response_json silent_py_in silent_getitem silent_str_strip
  : silent.

(** [_call_hf] sends exactly one request, to the inference endpoint. *)
Lemma call_hf_trace (self : SimpleLLMAgent) (prompt : string) (t : trace) :
  fst (_call_hf w self prompt t)
  = match api_url self with
    | None => t
    | Some url =>
        (t ++ [EvInference url ("Bearer " ++ str_opt (HF_API_TOKEN w)) prompt])%list
    end.
Proof.
  unfold _call_hf. destruct (api_url self) as [url|]; [|reflexivity].
  unfold bind at 1, request.
  destruct (requests_post_inference w t url _ prompt) as [resp|e];
    [|reflexivity].
  match goal with |- fst (?c ?t') = _ => enough (H : silent c) by apply H end.
  apply silent_bind; [auto with silent | intros _].
  apply silent_bind; [auto with silent | intros data].
  apply silent_bind; [| intros text; auto with silent].
  destruct data as [| | | |[|first l]|]; auto with silent.
  apply silent_bind; auto with silent.
  intros []; auto with silent.
Qed.

(** What [run] does, case by case. *)
Lemma run_unfold (self : SimpleLLMAgent) (prompt : string) (metadata : dict)
    (t : trace) :
  run w self prompt metadata t
  = match _gaia_tools prompt with
    | Some a => (t, Ok a)
    | None =>
        if truthy_opt (api_url self) && truthy_opt (HF_API_TOKEN w)
        then match _call_hf w self prompt t with
             | (t', Ok out) => (t', Ok out)
             | (t', Raise _) => (t', Ok "I don't know")
             end
        else (t, Ok "I don't know")
    end.
Proof.
  unfold run. destruct (_gaia_tools prompt); [reflexivity|].
  destruct (_ && _); reflexivity.
Qed.

End WithWorld.

(** C1.  [run] returns a string on every question and every metadata and
    never raises: the answer of the tool when one matches; else the output
    of the call of the completer when one is configured and the call
    succeeds; else ["I don't know"], also when the call raises.  An agent
    built without a token sends no request: the trace is unchanged. *)
Theorem run_never_raises (w : World) (self : SimpleLLMAgent)
    (prompt : string) (metadata : dict) (t : trace) :
  (exists answer t',
      run w self prompt metadata t = (t', Ok answer)
      /\ (forall a, _gaia_tools prompt = Some a -> answer = a /\ t' = t)
      /\ (_gaia_tools prompt = None ->
          truthy_opt (api_url self) && truthy_opt (HF_API_TOKEN w) = true ->
          (forall out t1, _call_hf w self prompt t = (t1, Ok out) ->
                          answer = out /\ t' = t1)
          /\ (forall e t1, _call_hf w self prompt t = (t1, Raise e) ->
                           answer = "I don't know" /\ t' = t1))
      /\ (_gaia_tools prompt = None ->
          truthy_opt (api_url self) && truthy_opt (HF_API_TOKEN w) = false ->
          answer = "I don't know" /\ t' = t))
  /\ (truthy_opt (HF_API_TOKEN w) = false ->
      api_url (SimpleLLMAgent_init w) = None
      /\ exists answer,
          run w (SimpleLLMAgent_init w) prompt metadata t = (t, Ok answer)
          /\ (_gaia_tools prompt = None -> answer = "I don't know")).
Proof.
  split.
  - rewrite run_unfold.
    destruct (_gaia_tools prompt) as [a|] eqn:Htool.
    + exists a, t. split; [reflexivity|]. split; [|split]; try discriminate.
      intros a' Ha. injection Ha as ->. now split.
    + destruct (truthy_opt (api_url self) && truthy_opt (HF_API_TOKEN w))
        eqn:Hcfg.
      * destruct (_call_hf w self prompt t) as [t1 [out|e]] eqn:Hcall.
        -- exists out, t1. split; [reflexivity|].
           split; [discriminate|]. split; [|discriminate].
           intros _ _. split.
           ++ intros out' t1' Ho. injection Ho as -> ->. now split.
           ++ discriminate.
        -- exists "I don't know", t1. split; [reflexivity|].
           split; [discriminate|]. split; [|discriminate].
           intros _ _. split.
           ++ discriminate.
           ++ intros e' t1' He. injection He as -> _. now split.
      * exists "I don't know", t. split; [reflexivity|].
        split; [discriminate|]. split; [discriminate|].
        intros _ _. now split.
  - intros Htok. unfold SimpleLLMAgent_init. rewrite Htok.
    split; [reflexivity|].
    rewrite run_unfold. simpl.
    destruct (_gaia_tools prompt) as [a|].
    + exists a. split; [reflexivity | discriminate].
    + exists "I don't know". split; reflexivity.
Qed.

(** C9.  The metadata has no influence on [run]: with the same world, the
    same agent and the same trace, two metadata mappings give the same
    answer and the same requests. *)
Theorem run_ignores_metadata (w : World) (self : SimpleLLMAgent)
    (q : string) (m1 m2 : dict) (t : trace) :
  run w self q m1 t = run w self q m2 t.
Proof. reflexivity. Qed.

End RunFacts.

(** ** The evaluation loop *)

Module LoopFacts.
Import PyStr Py Agent Runner RunFacts.

Section WithWorld.

Variable w : World.
Variable agent : GaiaAgent.

Lemma run_trace (self : SimpleLLMAgent) (prompt : string) (metadata : dict)
    (t : trace) :
  exists evs,
    fst (run w self prompt metadata t) = (t ++ evs)%list
    /\ forallb is_dispatch_event evs = true.
Proof.
  rewrite run_unfold.
  destruct (_gaia_tools prompt) as [a|].
  { exists []. now rewrite app_nil_r. }
  destruct (_ && _).
  2:{ exists []. now rewrite app_nil_r. }
  pose proof (call_hf_trace w self prompt t) as H.
  destruct (_call_hf w self prompt t) as [t1 [out|e]]; simpl in *; subst t1;
    (destruct (api_url self) as [url|];
     [eexists [_]; split; reflexivity | exists []; now rewrite app_nil_r]).
Qed.

Lemma run_returns (self : SimpleLLMAgent) (prompt : string) (metadata : dict)
    (t : trace) :
  exists a, snd (run w self prompt metadata t) = Ok a.
Proof.
  rewrite run_unfold.
  destruct (_gaia_tools prompt) as [a|]; [now exists a|].
  destruct (_ && _); [|now eexists].
  destruct (_call_hf w self prompt t) as [t1 [out|e]]; now eexists.
Qed.

(** A call of [answer] is recorded, and sends nothing but what the agent
    sends. *)
Lemma answer_trace (q : json) (metadata : dict) (t : trace) :
  exists evs,
    fst (answer w agent q metadata t) = (t ++ EvAgent q metadata :: evs)%list
    /\ forallb is_dispatch_event evs = true.
Proof.
  unfold answer, bind, record.
  destruct q; try (exists []; split; reflexivity).
  destruct (run_trace (core_agent agent) s metadata
              (t ++ [EvAgent (JStr s) metadata])%list) as (evs & Ht & Hevs).
  exists evs. split; [|exact Hevs].
  destruct (run w (core_agent agent) s metadata _) as [t1 [a|e]];
    simpl in *; subst t1; now rewrite <- app_assoc.
Qed.

(** On a question that is a string, [answer] returns. *)
Lemma answer_str_returns (s : string) (metadata : dict) (t : trace) :
  exists a, snd (answer w agent (JStr s) metadata t) = Ok a.
Proof.
  unfold answer, bind, record.
  destruct (run_returns (core_agent agent) s metadata
              (t ++ [EvAgent (JStr s) metadata])%list) as (a & Ha).
  destruct (run w (core_agent agent) s metadata _) as [t1 [a'|e]];
    simpl in *; [now eexists | discriminate].
Qed.

Lemma loop_body_skip (d : dict) (acc : accum) (t : trace) :
  task_of (JObj d) = None ->
  loop_body w agent (JObj d) acc t = (t, Ok acc).
Proof.
  unfold task_of, loop_body. destruct acc as [p l].
  destruct (negb (truthy (get d "task_id")) || is_None (get d "question"));
    [reflexivity | discriminate].
Qed.

Lemma loop_body_dispatch (d : dict) (task_id q : json) (metadata : dict)
    (p : list Answer) (l : list Row) (t : trace) :
  task_of (JObj d) = Some (task_id, q, metadata) ->
  loop_body w agent (JObj d) (p, l) t
  = (fst (answer w agent q metadata t),
     Ok ((p ++ entry_of (task_id, q, snd (answer w agent q metadata t)))%list,
         (l ++ [row_of (task_id, q, snd (answer w agent q metadata t))])%list)).
Proof.
  unfold task_of, loop_body.
  destruct (negb (truthy (get d "task_id")) || is_None (get d "question"));
    [discriminate|].
  intros H. injection H as <- <- <-.
  unfold catch, bind.
  destruct (answer w agent _ _ t) as [t1 [a|e]]; simpl.
  - reflexivity.
  - now rewrite app_nil_r.
Qed.

Lemma loop_cons (item : json) (rest : list json) (acc : accum) (t : trace) :
  loop w agent (item :: rest) acc t
  = match loop_body w agent item acc t with
    | (t', Ok acc') => loop w agent rest acc' t'
    | (t', Raise e) => (t', Raise e)
    end.
Proof. reflexivity. Qed.

Lemma outcomes_cons (item : json) (rest : list json) (t : trace) :
  outcomes w agent (item :: rest) t
  = match task_of item with
    | None => outcomes w agent rest t
    | Some (task_id, q, metadata) =>
        (task_id, q, snd (answer w agent q metadata t))
          :: outcomes w agent rest (fst (answer w agent q metadata t))
    end.
Proof.
  simpl. destruct (task_of item) as [[[task_id q] metadata]|]; [|reflexivity].
  now destruct (answer w agent q metadata t).
Qed.

(** The loop, on a list of objects: it returns, with one row per outcome
    and one payload entry per outcome that is an answer. *)
Lemma loop_outcomes (items : list json) :
  forallb is_dict items = true ->
  forall p l t,
  exists t',
    loop w agent items (p, l) t
    = (t', Ok ((p ++ flat_map entry_of (outcomes w agent items t))%list,
               (l ++ map row_of (outcomes w agent items t))%list)).
Proof.
  induction items as [|item rest IH]; intros Hd p l t.
  - exists t. simpl. now rewrite !app_nil_r.
  - simpl in Hd. apply andb_true_iff in Hd as [Hitem Hrest].
    destruct item; try discriminate.
    rewrite loop_cons, outcomes_cons.
    destruct (task_of (JObj items)) as [[[task_id q] metadata]|] eqn:Htask.
    + rewrite (loop_body_dispatch _ _ _ _ _ _ _ Htask).
      destruct (IH Hrest
                  (p ++ entry_of (task_id, q,
                                  snd (answer w agent q metadata t)))%list
                  (l ++ [row_of (task_id, q,
                                 snd (answer w agent q metadata t))])%list
                  (fst (answer w agent q metadata t))) as (t' & Ht').
      exists t'. rewrite Ht'. cbn [flat_map map].
      now rewrite <- !app_assoc.
    + rewrite (loop_body_skip _ _ _ Htask). apply IH, Hrest.
Qed.

(** A loop that returns has run on objects only. *)
Lemma loop_ok_dicts (items : list json) :
  forall acc t t' acc',
    loop w agent items acc t = (t', Ok acc') ->
    forallb is_dict items = true.
Proof.
  induction items as [|item rest IH]; intros acc t t' acc' H.
  - reflexivity.
  - rewrite loop_cons in H.
    destruct (loop_body w agent item acc t) as [t1 [acc1|e]] eqn:Hbody;
      [|discriminate].
    simpl. rewrite (IH _ _ _ _ H), andb_true_r.
    destruct item; try reflexivity;
      destruct acc as [pl lg]; discriminate.
Qed.

(** The loop sends nothing but the calls of the agent. *)
Lemma loop_trace (items : list json) :
  forall acc t,
  exists evs,
    fst (loop w agent items acc t) = (t ++ evs)%list
    /\ forallb is_dispatch_event evs = true.
Proof.
  induction items as [|item rest IH]; intros acc t.
  - exists []. simpl. now rewrite app_nil_r.
  - rewrite loop_cons.
    destruct item;
      try (destruct acc as [pl lg]; exists []; simpl; now rewrite app_nil_r).
    destruct (task_of (JObj items)) as [[[task_id q] metadata]|] eqn:Htask.
    + destruct acc as [p l].
      rewrite (loop_body_dispatch _ _ _ _ _ _ _ Htask).
      destruct (answer_trace q metadata t) as (evs1 & Ht1 & Hevs1).
      destruct (IH (p ++ entry_of (task_id, q,
                                   snd (answer w agent q metadata t)),
                    l ++ [row_of (task_id, q,
                                  snd (answer w agent q metadata t))])%list
                  (fst (answer w agent q metadata t)))
        as (evs2 & Ht2 & Hevs2).
      exists (EvAgent q metadata :: evs1 ++ evs2)%list. split.
      * rewrite Ht2, Ht1. rewrite <- app_assoc. reflexivity.
      * simpl. rewrite forallb_app, Hevs1, Hevs2. reflexivity.
    + rewrite (loop_body_skip _ _ _ Htask). apply IH.
Qed.

Lemma outcomes_length (items : list json) :
  forall t,
    List.length (outcomes w agent items t)
    = List.length (filter valid_task items).
Proof.
  induction items as [|item rest IH]; intros t; [reflexivity|].
  rewrite outcomes_cons. simpl. unfold valid_task at 1.
  destruct (task_of item) as [[[task_id q] metadata]|]; simpl; now rewrite IH.
Qed.

End WithWorld.


Lemma rows_length (os : list (json * json * result string)) :
  List.length (map row_of os) = List.length os.
Proof. apply length_map. Qed.


End LoopFacts.

(** ** The claims on the evaluation runner *)

Module RunnerFacts.
Import PyStr Py Agent Runner RunFacts LoopFacts.


(** C4.  When the body of the answer of the questions endpoint is not a
    list with at least one item, [fetch_questions] raises, and
    [run_and_submit_all] returns the status of this failure and no table:
    the only event of the run is the request itself, so that no task was
    dispatched. *)
Theorem fetch_failure_aborts (w : World) (profile : Profile) (t : trace)
    (resp : Response) :
  requests_get w t (DEFAULT_API_URL ++ "/questions") = Ok resp ->
  nonempty_list_body resp = false ->
  exists e,
    fetch_questions w DEFAULT_API_URL t
    = ((t ++ [EvGet (DEFAULT_API_URL ++ "/questions")])%list, Raise e)
    /\ run_and_submit_all w (Some profile) t
       = ((t ++ [EvGet (DEFAULT_API_URL ++ "/questions")])%list,
          Ok ("Error while fetching questions: " ++ exn_msg e, None)).
Proof.
  intros Hget Hbody.
  assert (Hfetch : exists e,
             fetch_questions w DEFAULT_API_URL t
             = ((t ++ [EvGet (DEFAULT_API_URL ++ "/questions")])%list,
                Raise e)).
  { unfold fetch_questions, bind, request. rewrite Hget.
    unfold raise_for_status.
    destruct ((400 <=? status_code resp)%Z && (status_code resp <? 600)%Z);
      [now eexists|].
    unfold ret, response_json. unfold nonempty_list_body in Hbody.
    destruct (json_body resp) as [e|[| | | |[|item items]|]];
      try discriminate; now eexists. }
  destruct Hfetch as (e & Hfetch). exists e. split; [exact Hfetch|].
  unfold run_and_submit_all, bind, attempt. now rewrite Hfetch.
Qed.

Lemma fetch_trace (w : World) (api_url : string) (t : trace) :
  fst (fetch_questions w api_url t)
  = (t ++ [EvGet (api_url ++ "/questions")])%list.
Proof.
  unfold fetch_questions, bind, request.
  destruct (requests_get w t _) as [resp|e]; [|reflexivity].
  unfold raise_for_status.
  destruct (_ && _); [reflexivity|].
  unfold ret, response_json.
  destruct (json_body resp) as [e|[| | | |[|item items]|]]; reflexivity.
Qed.

(** C6, as amended.  An item that is an object is skipped when its
    [task_id] is missing, [None], empty or any other false value, or when
    its [question] is missing or [None]: the body of the loop returns the
    accumulators and the trace as they were (no call of the agent, no row,
    no payload entry), and the loop does on the whole list what it does on
    the list without this item. *)
Theorem malformed_item_dropped (w : World) (agent : GaiaAgent) (d : dict) :
  truthy (get d "task_id") = false \/ is_None (get d "question") = true ->
  (forall acc t, loop_body w agent (JObj d) acc t = (t, Ok acc))
  /\ (forall before after acc t,
         loop w agent (before ++ JObj d :: after) acc t
         = loop w agent (before ++ after) acc t).
Proof.
  intros H.
  assert (Htask : task_of (JObj d) = None).
  { unfold task_of. destruct H as [H|H]; rewrite H; simpl; try reflexivity.
    now rewrite orb_true_r. }
  split.
  - intros acc t. now apply loop_body_skip.
  - induction before as [|item before IH]; intros after acc t.
    + simpl app. rewrite loop_cons. now rewrite (loop_body_skip _ _ _ _ _ Htask).
    + simpl app. rewrite !loop_cons.
      destruct (loop_body w agent item acc t) as [t1 [acc1|e]];
        [apply IH | reflexivity].
Qed.

(** C7.  When the payload is empty after the loop, [run_and_submit_all]
    returns the status that no answer was produced together with the log,
    without any request to the submit endpoint; the log has one row per
    valid task of the fetched list. *)
Theorem empty_payload_short_circuit (w : World) (profile : Profile)
    (t t1 t2 : trace) (items : list json) (log : list Row) :
  fetch_questions w DEFAULT_API_URL t = (t1, Ok items) ->
  loop w (GaiaAgent_init w) items ([], []) t1 = (t2, Ok ([], log)) ->
  run_and_submit_all w (Some profile) t
  = (t2, Ok ("Agent did not produce any answers to submit.", Some log))
  /\ (exists evs, t2 = (t ++ evs)%list
                  /\ forallb (fun ev => negb (is_submit ev)) evs = true)
  /\ List.length log = List.length (filter valid_task items).
Proof.
  intros Hfetch Hloop. split; [|split].
  - unfold run_and_submit_all, bind, attempt. rewrite Hfetch, Hloop.
    reflexivity.
  - pose proof (fetch_trace w DEFAULT_API_URL t) as Ht1.
    rewrite Hfetch in Ht1. simpl in Ht1.
    destruct (loop_trace w (GaiaAgent_init w) items ([], []) t1)
      as (evs & Ht2 & Hevs).
    rewrite Hloop in Ht2. simpl in Ht2.
    exists (EvGet (DEFAULT_API_URL ++ "/questions") :: evs).
    split.
    + rewrite Ht2, Ht1, <- app_assoc. reflexivity.
    + simpl. rewrite forallb_forall in *. intros ev Hev.
      specialize (Hevs ev Hev). now destruct ev.
  - pose proof (loop_ok_dicts _ _ _ _ _ _ _ Hloop) as Hd.
    destruct (loop_outcomes w (GaiaAgent_init w) items Hd [] [] t1)
      as (t' & Hspec).
    rewrite Hloop in Hspec. simpl in Hspec.
    injection Hspec as _ _ ->.
    now rewrite rows_length, outcomes_length.
Qed.

(** C10.  An item with a task id and with the empty string as question is
    dispatched: the agent is called on the empty question, and the answer
    is appended to the payload and to the log.  An item whose [task_id] is
    the empty string is skipped as one without [task_id] is. *)
Theorem empty_question_dispatched (w : World) (agent : GaiaAgent) (d : dict) :
  (lookup "question" d = Some (JStr EmptyString) ->
   truthy (get d "task_id") = true ->
   forall p l t,
   exists t' evs a,
     loop_body w agent (JObj d) (p, l) t
     = (t', Ok ((p ++ [mkAnswer (get d "task_id") a])%list,
                (l ++ [mkRow (get d "task_id") (JStr EmptyString) a])%list))
     /\ t' = (t ++ EvAgent (JStr EmptyString)
                     (filter (fun kv => is_metadata_key (fst kv)) d)
                   :: evs)%list)
  /\ (lookup "task_id" d = Some (JStr EmptyString) ->
      forall acc t, loop_body w agent (JObj d) acc t = (t, Ok acc))
  /\ (lookup "task_id" d = None ->
      forall acc t, loop_body w agent (JObj d) acc t = (t, Ok acc)).
Proof.
  split; [|split].
  - intros Hq Hid p l t.
    assert (Htask : task_of (JObj d)
                    = Some (get d "task_id", JStr EmptyString,
                            filter (fun kv => is_metadata_key (fst kv)) d)).
    { assert (Hgq : get d "question" = JStr EmptyString)
        by (unfold get, get_default; now rewrite Hq).
      unfold task_of. rewrite Hid, Hgq. reflexivity. }
    rewrite (loop_body_dispatch _ _ _ _ _ _ _ _ _ Htask).
    destruct (answer_trace w agent (JStr EmptyString)
                (filter (fun kv => is_metadata_key (fst kv)) d) t)
      as (evs & Ht & _).
    destruct (answer_str_returns w agent EmptyString
                (filter (fun kv => is_metadata_key (fst kv)) d) t)
      as (a & Ha).
    exists (fst (answer w agent (JStr EmptyString)
                   (filter (fun kv => is_metadata_key (fst kv)) d) t)),
      evs, a.
    rewrite Ha. split; [reflexivity | exact Ht].
  - intros H acc t. apply loop_body_skip.
    unfold task_of, get, get_default. now rewrite H.
  - intros H acc t. apply loop_body_skip.
    unfold task_of, get, get_default. now rewrite H.
Qed.

End RunnerFacts.

(** ** The status of a failed submission *)

Module StatusFacts.
Import PyStr Py Agent Runner PyStrFacts RunFacts LoopFacts.




End StatusFacts.

(** ** The claims on concrete runs *)

Module Examples.
Import PyStr Py Agent Runner Sample.
Import AgentFacts RunFacts LoopFacts RunnerFacts StatusFacts.

(** Without token no request is sent and the default answer comes back;
    with a token the output of the completer comes back. *)
Lemma run_never_raises_witness :
  run (offline []) (SimpleLLMAgent_init (offline [])) "capital of France?"
    [] []
  = ([], Ok "I don't know")
  /\ snd (run (online []) (SimpleLLMAgent_init (online []))
            "capital of France?" [] [])
     = Ok "Paris".
Proof.
  split.
  - destruct (proj2 (run_never_raises (offline [])
                       (SimpleLLMAgent_init (offline []))
                       "capital of France?" [] []) eq_refl)
      as (_ & a & Hrun & Ha).
    rewrite Hrun, Ha; reflexivity.
  - destruct (proj1 (run_never_raises (online [])
                       (SimpleLLMAgent_init (online []))
                       "capital of France?" [] []))
      as (a & t' & Hrun & _ & Hcfg & _).
    rewrite Hrun. simpl.
    destruct (Hcfg eq_refl eq_refl) as (Hok & _).
    destruct (Hok "Paris" _ eq_refl) as (-> & _). reflexivity.
Defined.

(** The question [overlap] satisfies the fourth and the last rule, and
    gets the answer of the fourth; a question outside of the table gets
    none. *)
Lemma gaia_tools_first_rule_wins_witness :
  holds (mkRule ["only malko competition recipient from the 20th century"]
           "Claus") (lower overlap) = true
  /\ _gaia_tools overlap = Some "Rd5"
  /\ _gaia_tools "capital of France?" = None.
Proof.
  split; [reflexivity|]. split.
  - apply (proj1 (gaia_tools_first_rule_wins overlap) 3
             (mkRule ["review the chess position provided in the image"]
                "Rd5")).
    + reflexivity.
    + reflexivity.
    + intros [|[|[|j]]] r' Hj Hnth; try lia;
        injection Hnth as <-; reflexivity.
  - apply (proj2 (gaia_tools_first_rule_wins "capital of France?")).
    intros r Hin. unfold AnswerTable in Hin. simpl in Hin.
    repeat (destruct Hin as [<-|Hin]; [reflexivity|]).
    contradiction.
Defined.



(** An empty list from the questions endpoint. *)
Lemma fetch_failure_aborts_witness :
  run_and_submit_all (offline []) (Some alice) []
  = ([EvGet (DEFAULT_API_URL ++ "/questions")],
     Ok ("Error while fetching questions: "
         ++ "Questions endpoint returned empty or invalid payload.",
         None)).
Proof.
  destruct (fetch_failure_aborts (offline []) alice []
              (mkResponse 200 EmptyString EmptyString (inr (JList [])))
              eq_refl eq_refl)
    as (e & Hfetch & Hrun).
  rewrite Hrun. injection Hfetch as <-. reflexivity.
Defined.



(** The list of the fetch-skip example: the loop does on it what it does
    on its first item alone, and the log has one row.  An item is skipped
    as well when its [task_id] is [None] or empty, or its [question]
    [None]. *)
Lemma malformed_item_dropped_witness :
  loop (offline fetch_skip_items) (GaiaAgent_init (offline fetch_skip_items))
    fetch_skip_items ([], []) []
  = loop (offline fetch_skip_items) (GaiaAgent_init (offline fetch_skip_items))
      [JObj [("task_id", JStr "1"); ("question", JStr "Q1")]] ([], []) []
  /\ snd (loop (offline fetch_skip_items)
            (GaiaAgent_init (offline fetch_skip_items))
            fetch_skip_items ([], []) [])
     = Ok ([mkAnswer (JStr "1") "I don't know"],
           [mkRow (JStr "1") (JStr "Q1") "I don't know"])
  /\ (forall d,
         In d [ [("task_id", JNull); ("question", JStr "Q")];
                [("task_id", JStr EmptyString); ("question", JStr "Q")];
                [("task_id", JStr "7")];
                [("task_id", JStr "7"); ("question", JNull)] ] ->
         loop_body (offline []) (GaiaAgent_init (offline [])) (JObj d)
           ([], []) []
         = ([], Ok ([], []))).
Proof.
  split; [|split; [reflexivity|]].
  - apply (proj2 (malformed_item_dropped (offline fetch_skip_items)
                    (GaiaAgent_init (offline fetch_skip_items))
                    [("question", JStr "Q2")] (or_introl eq_refl))
             [JObj [("task_id", JStr "1"); ("question", JStr "Q1")]] []).
  - intros d [<-|[<-|[<-|[<-|[]]]]];
      apply (malformed_item_dropped (offline []) (GaiaAgent_init (offline [])));
      first [now left | now right].
Defined.

(** C6 fails as stated: a fetched item that is not an object has no id,
    and it is not dropped.  On the list [bare_items], whose first item is
    a string, the loop raises at this item, the run raises with it, and
    the valid task that follows is never dispatched: the only event is the
    request to the questions endpoint. *)
Lemma bare_item_fails_run :
  valid_task (JStr "What is 2+2?") = false
  /\ run_and_submit_all (offline bare_items) (Some alice) []
     = ([EvGet (DEFAULT_API_URL ++ "/questions")],
        Raise (Exn (Err AttributeError
                      "'str' object has no attribute 'get'")))
  /\ snd (loop (offline bare_items) (GaiaAgent_init (offline bare_items))
            [JObj [("task_id", JStr "1"); ("question", JStr "Q1")]]
            ([], []) [])
     = Ok ([mkAnswer (JStr "1") "I don't know"],
           [mkRow (JStr "1") (JStr "Q1") "I don't know"])
  /\ loop (offline bare_items) (GaiaAgent_init (offline bare_items))
       bare_items ([], []) []
     <> loop (offline bare_items) (GaiaAgent_init (offline bare_items))
          [JObj [("task_id", JStr "1"); ("question", JStr "Q1")]]
          ([], []) [].
Proof.
  repeat (split; [reflexivity|]).
  intros H. apply (f_equal snd) in H. vm_compute in H. discriminate H.
Defined.

(** Every valid task of [failing_items] makes the agent raise: nothing is
    submitted, and the log has the two rows of the two valid tasks. *)
Lemma empty_payload_short_circuit_witness :
  snd (run_and_submit_all (offline failing_items) (Some alice) [])
  = Ok ("Agent did not produce any answers to submit.",
        Some [mkRow (JStr "a") (JInt 4)
                "AGENT ERROR: 'int' object is not subscriptable";
              mkRow (JInt 7) (JBool true)
                "AGENT ERROR: 'bool' object is not subscriptable"])
  /\ List.length (filter valid_task failing_items) = 2.
Proof.
  split; [|reflexivity].
  pose proof (empty_payload_short_circuit (offline failing_items)
                alice [] _ _ failing_items _ eq_refl eq_refl) as (Hrun & _).
  rewrite Hrun. reflexivity.
Defined.

(** A task with the empty question is dispatched and answered; a task
    with the empty id is skipped. *)
Lemma empty_question_dispatched_witness :
  (exists t' evs a,
      loop_body (offline []) (GaiaAgent_init (offline []))
        (JObj [("task_id", JStr "9"); ("question", JStr EmptyString)])
        ([], []) []
      = (t', Ok ([mkAnswer (JStr "9") a],
                 [mkRow (JStr "9") (JStr EmptyString) a]))
      /\ t' = EvAgent (JStr EmptyString) [] :: evs)
  /\ loop_body (offline []) (GaiaAgent_init (offline []))
       (JObj [("task_id", JStr EmptyString); ("question", JStr "Q")])
       ([], []) []
     = ([], Ok ([], [])).
Proof.
  split.
  - exact (proj1 (empty_question_dispatched (offline [])
                    (GaiaAgent_init (offline []))
                    [("task_id", JStr "9"); ("question", JStr EmptyString)])
             eq_refl eq_refl [] [] []).
  - apply (proj1 (proj2 (empty_question_dispatched (offline [])
                           (GaiaAgent_init (offline []))
                           [("task_id", JStr EmptyString);
                            ("question", JStr "Q")]))
             eq_refl).
Defined.

End Examples.

(** * Further properties *)

(** ** Stripping *)

Module StripFacts.
Import PyStr Py Agent Runner PyStrFacts RunFacts LoopFacts.

Section WithWorld.

Variable w : World.
Variable agent : GaiaAgent.

Lemma answer_ok_clean (q : json) (metadata : dict) (t : trace) (a : string) :
  snd (answer w agent q metadata t) = Ok a -> clean a.
Proof.
  unfold answer, bind, record.
  destruct q; simpl; try discriminate.
  destruct (run w (core_agent agent) s metadata _) as [t1 [r|e]]; simpl;
    [|discriminate].
  intros H. injection H as <-. apply strip_clean.
Qed.

Lemma outcomes_clean (items : list json) :
  forall t task_id q a,
    In (task_id, q, Ok a) (outcomes w agent items t) -> clean a.
Proof.
  induction items as [|item rest IH]; intros t task_id q a Hin.
  - contradiction.
  - rewrite outcomes_cons in Hin.
    destruct (task_of item) as [[[task_id' q'] metadata]|]; [|eauto].
    destruct Hin as [Heq|Hin]; [|eauto].
    injection Heq as _ _ Hsnd. exact (answer_ok_clean _ _ _ _ Hsnd).
Qed.

End WithWorld.

(** X1.  On every question that is a string, [GaiaAgent.answer] returns,
    and its answer has no white space at either end: stripping it again
    changes nothing. *)
Theorem answer_is_clean (w : World) (agent : GaiaAgent) (s : string)
    (metadata : dict) (t : trace) :
  exists a,
    snd (answer w agent (JStr s) metadata t) = Ok a
    /\ lstrip a = a /\ rstrip a = a /\ strip a = a.
Proof.
  destruct (answer_str_returns w agent s metadata t) as (a & Ha).
  exists a. split; [exact Ha|].
  pose proof (answer_ok_clean w agent _ _ _ _ Ha) as Hc.
  destruct Hc as [Hl Hr]. repeat split; try assumption.
  apply clean_strip. now split.
Qed.

(** X2.  Whenever the loop returns, each entry of the payload has its row
    in the log, with the same task id and the same answer, and the answer
    has no white space at either end. *)
Theorem payload_entries_logged (w : World) (agent : GaiaAgent)
    (items : list json) (t t' : trace) (payload : list Answer)
    (log : list Row) :
  loop w agent items ([], []) t = (t', Ok (payload, log)) ->
  forall entry, In entry payload ->
    (exists q,
        In (mkRow (ans_task_id entry) q (ans_submitted_answer entry)) log)
    /\ strip (ans_submitted_answer entry) = ans_submitted_answer entry.
Proof.
  intros Hrun entry Hin.
  pose proof (loop_ok_dicts _ _ _ _ _ _ _ Hrun) as Hd.
  destruct (loop_outcomes w agent items Hd [] [] t) as (t1 & Hloop).
  rewrite Hrun in Hloop. simpl in Hloop. injection Hloop as _ -> ->.
  apply in_flat_map in Hin as ([[task_id q] [a|e]] & Ho & He); simpl in He;
    [|contradiction].
  destruct He as [<-|[]]. simpl. split.
  - exists q. apply (in_map row_of) in Ho. exact Ho.
  - apply clean_strip. exact (outcomes_clean w agent items _ _ _ _ Ho).
Qed.

End StripFacts.

(** ** The completer *)

Module CompleterFacts.
Import PyStr Py Agent Runner RunFacts.

Section WithWorld.

Variable w : World.

(** The agent that [create_agent] builds when the token is set, its
    endpoint and its authorization header. *)
Local Abbreviation self := (SimpleLLMAgent_init w).
Local Abbreviation url :=
  ("https://api-inference.huggingface.co/models/" ++ HF_MODEL_ID w).
Local Abbreviation authorization := ("Bearer " ++ str_opt (HF_API_TOKEN w)).

Lemma init_with_token :
  truthy_opt (HF_API_TOKEN w) = true -> api_url self = Some url.
Proof. intros H. unfold SimpleLLMAgent_init. now rewrite H. Qed.

Lemma run_fallback (prompt : string) (metadata : dict) (t : trace) :
  truthy_opt (HF_API_TOKEN w) = true ->
  _gaia_tools prompt = None ->
  run w self prompt metadata t
  = match _call_hf w self prompt t with
    | (t', Ok out) => (t', Ok out)
    | (t', Raise _) => (t', Ok "I don't know")
    end.
Proof.
  intros Htok Htool. rewrite run_unfold, Htool, (init_with_token Htok), Htok.
  reflexivity.
Qed.

Lemma call_hf_response (prompt : string) (t : trace) (resp : Response)
    (data : json) :
  truthy_opt (HF_API_TOKEN w) = true ->
  requests_post_inference w t url authorization prompt = Ok resp ->
  ((400 <=? status_code resp) && (status_code resp <? 600))%Z = false ->
  json_body resp = inr data ->
  _call_hf w self prompt t
  = Py.bind
      match data with
      | JList (first :: _) =>
          Py.bind (py_in w "generated_text" first)
            (fun found =>
               if found then getitem w first "generated_text"
               else ret (JStr (py_str w data)))
      | _ => ret (JStr (py_str w data))
      end
      (fun text => str_strip w text)
      (t ++ [EvInference url authorization prompt])%list.
Proof.
  intros Htok Hpost Hstatus Hjson.
  unfold _call_hf. rewrite (init_with_token Htok).
  unfold Py.bind at 1, request. rewrite Hpost.
  unfold Py.bind at 1, raise_for_status. rewrite Hstatus.
  unfold ret at 1. unfold Py.bind at 1, response_json. rewrite Hjson.
  reflexivity.
Qed.

End WithWorld.

(** X3.  When the inference endpoint answers outside of the statuses 400
    to 599 with a JSON list whose first element is an object with a string
    under [generated_text], the completer returns this string stripped,
    and so does [run] on a question that no tool answers. *)
Theorem completion_is_stripped (w : World) (prompt : string)
    (metadata : dict) (t : trace) (resp : Response) (d : dict)
    (rest : list json) (s : string) :
  truthy_opt (HF_API_TOKEN w) = true ->
  requests_post_inference w t
    ("https://api-inference.huggingface.co/models/" ++ HF_MODEL_ID w)
    ("Bearer " ++ str_opt (HF_API_TOKEN w)) prompt = Ok resp ->
  ((400 <=? status_code resp) && (status_code resp <? 600))%Z = false ->
  json_body resp = inr (JList (JObj d :: rest)) ->
  lookup "generated_text" d = Some (JStr s) ->
  _call_hf w (SimpleLLMAgent_init w) prompt t
  = ((t ++ [EvInference
              ("https://api-inference.huggingface.co/models/"
               ++ HF_MODEL_ID w)
              ("Bearer " ++ str_opt (HF_API_TOKEN w)) prompt])%list,
     Ok (strip s))
  /\ (_gaia_tools prompt = None ->
      snd (run w (SimpleLLMAgent_init w) prompt metadata t)
      = Ok (strip s)).
Proof.
  intros Htok Hpost Hstatus Hjson Hkey.
  assert (Hcall :
            _call_hf w (SimpleLLMAgent_init w) prompt t
            = ((t ++ [EvInference
                        ("https://api-inference.huggingface.co/models/"
                         ++ HF_MODEL_ID w)
                        ("Bearer " ++ str_opt (HF_API_TOKEN w)) prompt])%list,
               Ok (strip s))).
  { rewrite (call_hf_response w prompt t resp _ Htok Hpost Hstatus Hjson).
    unfold Py.bind, py_in, getitem, ret. rewrite Hkey. reflexivity. }
  split; [exact Hcall|].
  intros Htool. rewrite (run_fallback w prompt metadata t Htok Htool).
  now rewrite Hcall.
Qed.

(** X4.  When the inference endpoint answers with a status from 400 to
    599, the completer raises the [HTTPError] of this response, whatever
    the body is, and [run] answers ["I don't know"] on a question that no
    tool answers. *)
Theorem completer_http_error (w : World) (prompt : string)
    (metadata : dict) (t : trace) (resp : Response) :
  truthy_opt (HF_API_TOKEN w) = true ->
  requests_post_inference w t
    ("https://api-inference.huggingface.co/models/" ++ HF_MODEL_ID w)
    ("Bearer " ++ str_opt (HF_API_TOKEN w)) prompt = Ok resp ->
  ((400 <=? status_code resp) && (status_code resp <? 600))%Z = true ->
  snd (_call_hf w (SimpleLLMAgent_init w) prompt t)
  = Raise (HTTPError (status_msg resp) resp)
  /\ (_gaia_tools prompt = None ->
      snd (run w (SimpleLLMAgent_init w) prompt metadata t)
      = Ok "I don't know").
Proof.
  intros Htok Hpost Hstatus.
  assert (Hcall :
            _call_hf w (SimpleLLMAgent_init w) prompt t
            = ((t ++ [EvInference
                        ("https://api-inference.huggingface.co/models/"
                         ++ HF_MODEL_ID w)
                        ("Bearer " ++ str_opt (HF_API_TOKEN w)) prompt])%list,
               Raise (HTTPError (status_msg resp) resp))).
  { unfold _call_hf. rewrite (init_with_token w Htok).
    unfold Py.bind at 1, request. rewrite Hpost.
    unfold Py.bind at 1, raise_for_status. rewrite Hstatus. reflexivity. }
  split; [now rewrite Hcall|].
  intros Htool. rewrite (run_fallback w prompt metadata t Htok Htool).
  now rewrite Hcall.
Qed.

(** X5.  When the decoded answer of the inference endpoint is not a list
    with a first element (an object, a string, a number, the empty list),
    or is a list whose first element is an object without
    [generated_text], the completer returns the whole answer as [str]
    shows it, stripped. *)
Theorem completion_of_other_shapes (w : World) (prompt : string)
    (t : trace) (resp : Response) (data : json) :
  truthy_opt (HF_API_TOKEN w) = true ->
  requests_post_inference w t
    ("https://api-inference.huggingface.co/models/" ++ HF_MODEL_ID w)
    ("Bearer " ++ str_opt (HF_API_TOKEN w)) prompt = Ok resp ->
  ((400 <=? status_code resp) && (status_code resp <? 600))%Z = false ->
  json_body resp = inr data ->
  match data with
  | JList (JObj d :: _) => lookup "generated_text" d = None
  | JList (_ :: _) => False
  | _ => True
  end ->
  snd (_call_hf w (SimpleLLMAgent_init w) prompt t)
  = Ok (strip (py_str w data)).
Proof.
  intros Htok Hpost Hstatus Hjson Hshape.
  rewrite (call_hf_response w prompt t resp _ Htok Hpost Hstatus Hjson).
  destruct data as [| | | |[|first l]|]; try reflexivity.
  destruct first; try contradiction.
  unfold Py.bind, py_in, ret. rewrite Hshape. reflexivity.
Qed.

(** X6.  When the first element of the answer has a [generated_text] that
    is not a string, or is itself a number, a boolean or [None], the
    completer raises, and [run] answers ["I don't know"] on a question
    that no tool answers. *)
Theorem malformed_completion_degrades (w : World) (prompt : string)
    (metadata : dict) (t : trace) (resp : Response) (first : json)
    (rest : list json) :
  truthy_opt (HF_API_TOKEN w) = true ->
  requests_post_inference w t
    ("https://api-inference.huggingface.co/models/" ++ HF_MODEL_ID w)
    ("Bearer " ++ str_opt (HF_API_TOKEN w)) prompt = Ok resp ->
  ((400 <=? status_code resp) && (status_code resp <? 600))%Z = false ->
  json_body resp = inr (JList (first :: rest)) ->
  match first with
  | JObj d =>
      exists v, lookup "generated_text" d = Some v
                /\ match v with JStr _ => False | _ => True end
  | JNull | JBool _ | JInt _ => True
  | _ => False
  end ->
  (exists e, snd (_call_hf w (SimpleLLMAgent_init w) prompt t) = Raise e)
  /\ (_gaia_tools prompt = None ->
      snd (run w (SimpleLLMAgent_init w) prompt metadata t)
      = Ok "I don't know").
Proof.
  intros Htok Hpost Hstatus Hjson Hshape.
  assert (Hcall : exists e,
             snd (_call_hf w (SimpleLLMAgent_init w) prompt t) = Raise e).
  { rewrite (call_hf_response w prompt t resp _ Htok Hpost Hstatus Hjson).
    destruct first; try contradiction; try (now eexists).
    destruct Hshape as (v & Hkey & Hv).
    unfold Py.bind, py_in, getitem, ret. rewrite Hkey.
    destruct v; try contradiction; now eexists. }
  split; [exact Hcall|].
  intros Htool. rewrite (run_fallback w prompt metadata t Htok Htool).
  destruct Hcall as (e & He).
  destruct (_call_hf w (SimpleLLMAgent_init w) prompt t) as [t1 [out|e']];
    simpl in *; [discriminate | reflexivity].
Qed.

End CompleterFacts.

(** ** Fetching, dispatching and submitting *)

Module ProtocolFacts.
Import PyStr Py Agent Runner RunFacts LoopFacts RunnerFacts.

(** X7.  [fetch_questions] returns a list exactly when the request
    returns a response whose status is outside of 400 to 599 and whose
    body decodes to this list, which is not empty.  A status from 400 to
    599 makes it raise the [HTTPError] of the response, whatever the body
    is, and an exception of the request is raised as it is. *)
Theorem fetch_returns_iff (w : World) (api_url : string) (t : trace) :
  (forall items,
      snd (fetch_questions w api_url t) = Ok items
      <-> exists resp,
          requests_get w t (api_url ++ "/questions") = Ok resp
          /\ ((400 <=? status_code resp) && (status_code resp <? 600))%Z
             = false
          /\ json_body resp = inr (JList items)
          /\ items <> [])
  /\ (forall resp,
         requests_get w t (api_url ++ "/questions") = Ok resp ->
         ((400 <=? status_code resp) && (status_code resp <? 600))%Z = true ->
         snd (fetch_questions w api_url t)
         = Raise (HTTPError (status_msg resp) resp))
  /\ (forall e,
         requests_get w t (api_url ++ "/questions") = Raise e ->
         snd (fetch_questions w api_url t) = Raise e).
Proof.
  unfold fetch_questions, Py.bind, request, raise_for_status, response_json,
    ret, raise.
  split; [|split].
  - intros items. split.
    + destruct (requests_get w t _) as [resp|e]; [|discriminate].
      destruct (_ && _) eqn:Hs; [discriminate|].
      destruct (json_body resp) as [e|[| | | |[|item l]|]] eqn:Hj;
        try discriminate.
      simpl. intros H. injection H as <-.
      exists resp. repeat split; try assumption. discriminate.
    + intros (resp & -> & -> & -> & Hne).
      destruct items; [contradiction | reflexivity].
  - intros resp -> ->. reflexivity.
  - intros e ->. reflexivity.
Qed.

Lemma submission_trace (w : World) (user : string) (payload : list Answer)
    (t : trace) :
  fst (submission w user payload t)
  = (t ++ [EvSubmit (DEFAULT_API_URL ++ "/submit")
             (mkSubmission (strip user) (agent_code_url w) payload)])%list.
Proof.
  unfold submission, submit_answers, Py.bind, request.
  destruct (requests_post_submit w t _ _) as [resp|e]; [|reflexivity].
  unfold raise_for_status. destruct (_ && _); [reflexivity|].
  unfold ret, response_json.
  destruct (json_body resp) as [e|v]; [reflexivity|].
  unfold success_status. now destruct v.
Qed.


(** X9.  The events of a run of a logged-in user are, in this order: the
    request to the questions endpoint, the calls of the agent with the
    requests that the agent sends, and at most one request to the submit
    endpoint, which carries at least one answer. *)
Theorem run_events_shape (w : World) (profile : Profile) (t : trace) :
  exists evs sub,
    fst (run_and_submit_all w (Some profile) t)
    = (t ++ EvGet (DEFAULT_API_URL ++ "/questions") :: evs ++ sub)%list
    /\ forallb is_dispatch_event evs = true
    /\ (sub = []
        \/ exists payload,
            payload <> []
            /\ sub = [EvSubmit (DEFAULT_API_URL ++ "/submit")
                        (mkSubmission (strip (username profile))
                           (agent_code_url w) payload)]).
Proof.
  pose proof (fetch_trace w DEFAULT_API_URL t) as Ht1.
  unfold run_and_submit_all, Py.bind, attempt.
  destruct (fetch_questions w DEFAULT_API_URL t) as [t1 [items|e]];
    simpl in Ht1; subst t1.
  2:{ exists [], []. simpl. repeat split. now left. }
  destruct (loop_trace w (GaiaAgent_init w) items ([], [])
              (t ++ [EvGet (DEFAULT_API_URL ++ "/questions")])%list)
    as (evs & Ht2 & Hevs).
  destruct (loop w (GaiaAgent_init w) items ([], []) _)
    as [t2 [[payload log]|e]]; simpl in Ht2; subst t2.
  2:{ exists evs, []. simpl. rewrite app_nil_r, <- app_assoc.
      repeat split; [assumption | now left]. }
  destruct payload as [|a payload].
  { exists evs, []. simpl. rewrite app_nil_r, <- app_assoc.
    repeat split; [assumption | now left]. }
  unfold catch.
  pose proof (submission_trace w (username profile) (a :: payload)
                ((t ++ [EvGet (DEFAULT_API_URL ++ "/questions")]) ++ evs)%list)
    as Ht3.
  exists evs, [EvSubmit (DEFAULT_API_URL ++ "/submit")
                 (mkSubmission (strip (username profile))
                    (agent_code_url w) (a :: payload))].
  split; [|split; [assumption|]].
  - destruct (submission w (username profile) (a :: payload) _)
      as [t3 [status|e]]; simpl in *; subst t3;
      now rewrite <- !app_assoc.
  - right. exists (a :: payload). split; [discriminate | reflexivity].
Qed.




End ProtocolFacts.

(** ** The calls of the agent *)

Module DispatchFacts.
Import PyStr Py Agent Runner PyStrFacts RunFacts LoopFacts StripFacts StatusFacts.

Section WithWorld.

Variable w : World.
Variable agent : GaiaAgent.








End WithWorld.



Lemma first_match_in (rules : list AnswerRule) (p a : string) :
  first_match rules p = Some a ->
  exists r, In r rules /\ holds r p = true /\ a = rule_answer r.
Proof.
  induction rules as [|r rules IH]; simpl; [discriminate|].
  destruct (holds r p) eqn:Hr.
  - intros H. injection H as <-. exists r. auto.
  - intros H. destruct (IH H) as (r' & Hin & Hh & Ha). exists r'. auto.
Qed.

Lemma table_answers_clean :
  forall r, In r AnswerTable -> strip (rule_answer r) = rule_answer r.
Proof.
  assert (H : forallb (fun r => strip (rule_answer r) =? rule_answer r)
                AnswerTable = true) by (vm_compute; reflexivity).
  rewrite forallb_forall in H. intros r Hr.
  apply String.eqb_eq. now apply H.
Qed.

(** X14.  On a question that a tool answers, [GaiaAgent.answer] returns
    the answer of the tool as it is: stripping changes none of the
    answers of the table, and the only event is the call itself, also
    when a completer is configured. *)
Theorem tool_answer_passthrough (w : World) (agent : GaiaAgent)
    (s a : string) (metadata : dict) (t : trace) :
  _gaia_tools s = Some a ->
  answer w agent (JStr s) metadata t
  = ((t ++ [EvAgent (JStr s) metadata])%list, Ok a).
Proof.
  intros Htool. unfold answer, Py.bind, record.
  rewrite run_unfold, Htool. unfold ret.
  rewrite AgentFacts.gaia_tools_table in Htool.
  destruct (first_match_in _ _ _ Htool) as (r & Hin & _ & ->).
  now rewrite (table_answers_clean r Hin).
Qed.

(** X15.  When the submit endpoint answers outside of the statuses 400 to
    599 with a JSON body that is not an object, the submission is
    reported as an unexpected error although the answers were posted. *)
Theorem non_object_score_unexpected (w : World) (user : string)
    (payload : list Answer) (t : trace) (resp : Response) (v : json) :
  requests_post_submit w t (DEFAULT_API_URL ++ "/submit")
    (mkSubmission (strip user) (agent_code_url w) payload) = Ok resp ->
  ((400 <=? status_code resp) && (status_code resp <? 600))%Z = false ->
  json_body resp = inr v ->
  is_dict v = false ->
  submission w user payload t
  = ((t ++ [EvSubmit (DEFAULT_API_URL ++ "/submit")
              (mkSubmission (strip user) (agent_code_url w) payload)])%list,
     Raise (Exn (Err AttributeError (no_attribute w v "get"))))
  /\ failure_status w (Exn (Err AttributeError (no_attribute w v "get")))
     = "An unexpected error occurred during submission: "
       ++ no_attribute w v "get".
Proof.
  intros Hpost Hstatus Hjson Hv. split; [|reflexivity].
  unfold submission, submit_answers, Py.bind, request. rewrite Hpost.
  unfold raise_for_status. rewrite Hstatus.
  unfold ret, response_json. rewrite Hjson.
  destruct v; try reflexivity. discriminate.
Qed.

(** X16.  When the body of an HTTP error is not a JSON object, the status
    has 60 characters, the digits of the status code and at most 500
    characters of the body: [len] counts the characters, not the bytes. *)
Theorem http_status_length (w : World) (msg : string) (r : Response) :
  match json_body r with inr (JObj _) => False | _ => True end ->
  len (failure_status w (HTTPError msg r))
  = 60 + len (of_Z (status_code r)) + Nat.min 500 (len (text r)).
Proof.
  intros Hbody.
  change (failure_status w (HTTPError msg r)) with (http_error_status w r).
  unfold http_error_status.
  destruct (json_body r) as [e|[| | | | |d]]; try contradiction;
    rewrite !len_append, len_take; simpl; lia.
Qed.

End DispatchFacts.

(** ** Questions inside of a longer text, and the wrapper of [model.py] *)

Module ModelFacts.
Import PyStr Py Agent ModelPy PyStrFacts AgentFacts RunFacts LoopFacts.
Import StripFacts.

Lemma table_sigma_free :
  forallb (fun r => forallb sigma_free (needles r)) AnswerTable = true.
Proof. vm_compute. reflexivity. Qed.

Lemma holds_inside (r : AnswerRule) (a p b : string) :
  In r AnswerTable ->
  starts_cont p = false -> starts_cont b = false ->
  holds r (lower p) = true -> holds r (lower (a ++ p ++ b)) = true.
Proof.
  intros Hin Hp Hb. unfold holds. rewrite !forallb_forall.
  intros H n Hn.
  pose proof table_sigma_free as Hfree. rewrite forallb_forall in Hfree.
  specialize (Hfree r Hin). rewrite forallb_forall in Hfree.
  apply contains_lower_inside; auto.
Qed.

Lemma first_match_le (rules : list AnswerRule) (p : string) :
  forall i r,
    nth_error rules i = Some r ->
    holds r p = true ->
    exists j r',
      j <= i /\ nth_error rules j = Some r' /\ holds r' p = true
      /\ first_match rules p = Some (rule_answer r').
Proof.
  induction rules as [|r0 rules IH]; intros i r Hi Hr.
  - destruct i; discriminate.
  - simpl. destruct (holds r0 p) eqn:H0.
    + exists 0, r0. repeat split; auto. lia.
    + destruct i as [|i]; simpl in Hi.
      * injection Hi as ->. congruence.
      * destruct (IH i r Hi Hr) as (j & r' & Hj & Hn & Hh & Hm).
        exists (S j), r'. repeat split; auto. lia.
Qed.

Lemma tools_inside (a p b : string) (i : nat) (r : AnswerRule) :
  nth_error AnswerTable i = Some r ->
  holds r (lower p) = true ->
  starts_cont p = false -> starts_cont b = false ->
  exists j r',
    j <= i /\ nth_error AnswerTable j = Some r'
    /\ _gaia_tools (a ++ p ++ b) = Some (rule_answer r').
Proof.
  intros Hi Hr Hp Hb.
  assert (Hr' : holds r (lower (a ++ p ++ b)) = true)
    by (apply holds_inside; eauto using nth_error_In).
  destruct (first_match_le AnswerTable _ i r Hi Hr')
    as (j & r' & Hj & Hn & _ & Hm).
  exists j, r'. repeat split; auto.
  now rewrite gaia_tools_table.
Qed.

(** X17.  A question that satisfies a rule still gets an answer of the
    table when text is put before and after it: the answer is the one of
    this rule or of a rule declared before it.  The question and the text
    after it are whole strings, that is UTF-8 forms of a [str]. *)
Theorem tools_on_embedded_question (a p b : string) (i : nat)
    (r : AnswerRule) :
  valid p = true -> valid b = true ->
  nth_error AnswerTable i = Some r ->
  holds r (lower p) = true ->
  exists j r',
    j <= i /\ nth_error AnswerTable j = Some r'
    /\ _gaia_tools (a ++ p ++ b) = Some (rule_answer r').
Proof.
  intros Hp Hb Hi Hr.
  assert (Hr' : holds r (lower (a ++ p ++ b)) = true).
  { apply holds_inside; eauto using nth_error_In, valid_starts. }
  destruct (first_match_le AnswerTable _ i r Hi Hr')
    as (j & r' & Hj & Hn & _ & Hm).
  exists j, r'. repeat split; auto.
  now rewrite gaia_tools_table.
Qed.

Section WithWorld.

Variable w : World.

Lemma postprocess_clean (v : json) :
  strip (_postprocess w v) = _postprocess w v.
Proof.
  unfold _postprocess.
  destruct v; try reflexivity;
    (destruct (prefix "answer:" _); apply strip_idem).
Qed.

Lemma table_answers_postprocess :
  forall r, In r AnswerTable ->
            _postprocess w (JStr (rule_answer r)) = rule_answer r.
Proof.
  assert (H : forallb (fun r => _postprocess w (JStr (rule_answer r))
                                =? rule_answer r) AnswerTable = true)
    by (vm_compute; reflexivity).
  rewrite forallb_forall in H. intros r Hr.
  apply String.eqb_eq. now apply H.
Qed.

(** The prompt has the question inside, and what follows the question
    starts with a line feed. *)
Lemma build_prompt_embeds (self : Model) (q : string)
    (metadata : option dict) :
  exists a b,
    _build_prompt w self q metadata = a ++ q ++ b
    /\ starts_cont b = false.
Proof.
  unfold _build_prompt.
  destruct metadata as [[|kv d]|].
  - exists (system_prompt self ++ blank_line ++ "Question: "), EmptyString.
    split; [|reflexivity]. now rewrite !append_assoc, append_nil_r.
  - exists (system_prompt self ++ blank_line ++ "Question: "),
      (blank_line ++ "Metadata: " ++ py_str w (JObj (kv :: d))).
    split; [|reflexivity]. now rewrite !append_assoc.
  - exists (system_prompt self ++ blank_line ++ "Question: "), EmptyString.
    split; [|reflexivity]. now rewrite !append_assoc, append_nil_r.
Qed.

End WithWorld.

(** The characters of a string whose lowercase form is [answer:]: there
    are seven of them, none is white space and each starts at a byte that
    is not a continuation byte. *)
Lemma answer_prefix_chars (pre : string) :
  lower pre = "answer:" ->
  List.length (chars pre) = 7
  /\ Forall (fun ch => isspace ch = false) (chars pre)
  /\ Forall (fun ch => starts_cont ch = false) (chars pre).
Proof.
  intros H. pose proof (chars_lower pre) as Hc. rewrite H in Hc.
  split; [|split].
  - rewrite <- (lower_chars_length (chars pre) []); rewrite <- Hc.
    + reflexivity.
    + vm_compute. intros Hin.
      repeat (destruct Hin as [Hin|Hin]; [discriminate Hin|]).
      exact Hin.
  - apply (lower_chars_reflect isspace lower_char_space _ []).
    rewrite <- Hc. repeat constructor.
  - apply (lower_chars_reflect starts_cont lower_char_cont _ []).
    rewrite <- Hc. repeat constructor.
Qed.

(** X18.  [_postprocess] removes a leading [answer:] written in any mix
    of capitals and small letters, and strips what follows it. *)
Theorem postprocess_answer_prefix (w : World) (pre rest : string) :
  lower pre = "answer:" ->
  valid rest = true ->
  _postprocess w (JStr (pre ++ rest)) = strip rest.
Proof.
  intros Hpre Hrest.
  destruct (answer_prefix_chars pre Hpre) as (Hlen & Hsp & Hlead).
  pose proof (valid_starts rest Hrest) as Hstart.
  pose proof (rstrip_starts rest Hstart) as Hstart'.
  assert (Htext : strip (pre ++ rest) = pre ++ rstrip rest).
  { unfold strip. rewrite chars_app by assumption.
    destruct (chars pre) as [|ch l] eqn:Hc; [discriminate|].
    inversion Hsp; subst.
    rewrite <- app_comm_cons, lstrip_chars_fixed by assumption.
    rewrite app_comm_cons, rstrip_chars_app, join_app by assumption.
    rewrite <- Hc, join_chars. reflexivity. }
  unfold _postprocess, py_str. rewrite Htext.
  destruct (lower_start pre (rstrip rest) Hstart') as (m & y & -> & Hsim).
  rewrite Hpre in Hsim. apply sim_sigma_free in Hsim; [|reflexivity].
  subst m. rewrite prefix_append.
  change (len "answer:") with 7. rewrite <- Hlen.
  rewrite <- (join_chars pre) at 2.
  rewrite drop_chars; try assumption.
  - apply strip_rstrip.
  - apply chars_split_ok.
Qed.

(** X19.  [Model.get_answer] on a question that satisfies a rule of the
    table returns, without any request, the answer of this rule or of a
    rule declared before it: the question is found inside of the prompt
    that is built around it, and no answer of the table is changed by
    [_postprocess]. *)
Theorem model_known_question (w : World) (self : Model) (q : string)
    (metadata : option dict) (t : trace) (i : nat) (r : AnswerRule) :
  valid q = true ->
  nth_error AnswerTable i = Some r ->
  holds r (lower q) = true ->
  exists j r',
    j <= i /\ nth_error AnswerTable j = Some r'
    /\ get_answer w self q metadata t = (t, Ok (rule_answer r')).
Proof.
  intros Hq Hi Hr.
  destruct (build_prompt_embeds w self q metadata) as (a & b & Hprompt & Hb).
  destruct (tools_inside a q b i r Hi Hr (valid_starts q Hq) Hb)
    as (j & r' & Hj & Hn & Htool).
  exists j, r'. repeat split; auto.
  unfold get_answer, Py.bind. rewrite Hprompt, run_unfold, Htool.
  unfold ret. now rewrite (table_answers_postprocess w r' (nth_error_In _ _ Hn)).
Qed.

(** X20.  [Model.get_answer] returns on every question, and what it
    returns has no white space at either end. *)
Theorem model_answer_is_clean (w : World) (self : Model) (q : string)
    (metadata : option dict) (t : trace) :
  exists a,
    snd (get_answer w self q metadata t) = Ok a /\ strip a = a.
Proof.
  unfold get_answer, Py.bind.
  destruct (run_returns w (_agent self)
              (_build_prompt w self q metadata) [] t) as (out & Hout).
  destruct (run w (_agent self) (_build_prompt w self q metadata) [] t)
    as [t1 [out'|e]]; cbn [snd] in *; [|discriminate].
  exists (_postprocess w (JStr out')). split; [reflexivity|].
  apply postprocess_clean.
Qed.

End ModelFacts.

(** ** Further properties on concrete runs *)

Module MoreExamples.
Import PyStr Py Agent Runner ModelPy Sample MoreSamples.
Import PyStrFacts StripFacts CompleterFacts ProtocolFacts DispatchFacts.
Import ModelFacts.

Lemma payload_entries_logged_witness :
  (exists q,
      In (mkRow (JStr "1") q "I don't know")
        [mkRow (JStr "1") (JStr "Q1") "I don't know"])
  /\ strip "I don't know" = "I don't know".
Proof.
  exact (payload_entries_logged (offline fetch_skip_items)
           (GaiaAgent_init (offline fetch_skip_items)) fetch_skip_items
           [] _ _ _ eq_refl
           (mkAnswer (JStr "1") "I don't know") (or_introl eq_refl)).
Defined.

Lemma completion_is_stripped_witness :
  snd (run padded (SimpleLLMAgent_init padded) "capital of France?" [] [])
  = Ok "Paris".
Proof.
  apply (proj2 (completion_is_stripped padded "capital of France?" [] []
                  (mkResponse 200 EmptyString EmptyString
                     (inr (JList [JObj [("generated_text",
                                         JStr padded_text)]])))
                  [("generated_text", JStr padded_text)] [] padded_text
                  eq_refl eq_refl eq_refl eq_refl eq_refl)).
  reflexivity.
Defined.

Lemma completer_http_error_witness :
  snd (_call_hf busy (SimpleLLMAgent_init busy) "capital of France?" [])
  = Raise (HTTPError (status_msg unavailable) unavailable)
  /\ snd (run busy (SimpleLLMAgent_init busy) "capital of France?" [] [])
     = Ok "I don't know".
Proof.
  destruct (completer_http_error busy "capital of France?" [] [] unavailable
              eq_refl eq_refl eq_refl) as (Hcall & Hrun).
  split; [exact Hcall | apply Hrun; reflexivity].
Defined.

Lemma completion_of_other_shapes_witness :
  snd (_call_hf erring (SimpleLLMAgent_init erring) "capital of France?" [])
  = Ok "{...}".
Proof.
  exact (completion_of_other_shapes erring "capital of France?" []
           (mkResponse 200 EmptyString EmptyString (inr loading)) loading
           eq_refl eq_refl eq_refl eq_refl I).
Defined.

Lemma malformed_completion_degrades_witness :
  snd (run nulling (SimpleLLMAgent_init nulling) "capital of France?" [] [])
  = Ok "I don't know".
Proof.
  apply (proj2 (malformed_completion_degrades nulling "capital of France?"
                  [] []
                  (mkResponse 200 EmptyString EmptyString
                     (inr (JList [JObj [("generated_text", JNull)]])))
                  (JObj [("generated_text", JNull)]) []
                  eq_refl eq_refl eq_refl eq_refl
                  (ex_intro _ JNull (conj eq_refl I)))).
  reflexivity.
Defined.

Lemma fetch_returns_iff_witness :
  snd (fetch_questions (offline fetch_skip_items) DEFAULT_API_URL [])
  = Ok fetch_skip_items.
Proof.
  apply (proj1 (fetch_returns_iff (offline fetch_skip_items)
                  DEFAULT_API_URL [])).
  exists (mkResponse 200 EmptyString EmptyString
            (inr (JList fetch_skip_items))).
  repeat split. discriminate.
Defined.






Lemma tool_answer_passthrough_witness :
  answer (online []) (GaiaAgent_init (online [])) (JStr sosa) [] []
  = ([EvAgent (JStr sosa) []], Ok "3").
Proof.
  exact (tool_answer_passthrough (online []) (GaiaAgent_init (online []))
           sosa "3" [] [] eq_refl).
Defined.

Lemma non_object_score_unexpected_witness :
  submission listing "alice" [mkAnswer (JStr "1") "I don't know"] []
  = ([EvSubmit (DEFAULT_API_URL ++ "/submit")
        (mkSubmission "alice" EmptyString
           [mkAnswer (JStr "1") "I don't know"])],
     Raise (Exn (Err AttributeError
                   "'list' object has no attribute 'get'")))
  /\ failure_status listing
       (Exn (Err AttributeError "'list' object has no attribute 'get'"))
     = "An unexpected error occurred during submission: "
       ++ "'list' object has no attribute 'get'".
Proof.
  exact (non_object_score_unexpected listing "alice"
           [mkAnswer (JStr "1") "I don't know"] []
           (mkResponse 200 EmptyString EmptyString (inr (JList [])))
           (JList []) eq_refl eq_refl eq_refl eq_refl).
Defined.

Lemma http_status_length_witness :
  len (failure_status busy (HTTPError (status_msg overloaded) overloaded))
  = 92
  /\ len (text overloaded) = 29
  /\ String.length (text overloaded) = 30.
Proof.
  split; [|split; reflexivity].
  rewrite (http_status_length busy (status_msg overloaded) overloaded I).
  reflexivity.
Defined.

Lemma tools_on_embedded_question_witness :
  exists j r',
    j <= 17 /\ nth_error AnswerTable j = Some r'
    /\ _gaia_tools ("Question: " ++ taisho ++ " Thanks.")
       = Some (rule_answer r').
Proof.
  exact (tools_on_embedded_question "Question: " taisho " Thanks." 17
           (mkRule
              ["pitchers with the number before and after taishō tamai's number"]
              "Yoshida, Uehara")
           eq_refl eq_refl eq_refl eq_refl).
Defined.

Lemma postprocess_answer_prefix_witness :
  _postprocess (offline [])
    (JStr ("Answer:" ++ chr 0xA0 ++ " 42 " ++ chr 0x3000))
  = "42".
Proof.
  exact (eq_trans
           (postprocess_answer_prefix (offline []) "Answer:"
              (chr 0xA0 ++ " 42 " ++ chr 0x3000) eq_refl eq_refl)
           eq_refl).
Defined.

Lemma model_known_question_witness :
  exists j r',
    j <= 17 /\ nth_error AnswerTable j = Some r'
    /\ get_answer (online []) (Model_init (online []) None) taisho
         (Some [("Level", JStr "1")]) []
       = ([], Ok (rule_answer r')).
Proof.
  exact (model_known_question (online []) (Model_init (online []) None)
           taisho (Some [("Level", JStr "1")]) [] 17
           (mkRule
              ["pitchers with the number before and after taishō tamai's number"]
              "Yoshida, Uehara")
           eq_refl eq_refl eq_refl).
Defined.

End MoreExamples.
